(** * lantern-lite: a shallow embedding of the configuration fetcher
      (package [s3config]) and of the local proxy (package [proxy]).

    Go values are modelled as follows.
    - [int] and [int64] are 64-bit two's-complement integers: a [Z] together
      with [wrap64] wherever the Go code does arithmetic on them.
    - [string] is [string]; [[]byte] is [list byte].
    - a Go [error] is the text of its [Error()] method; a call returning
      [(v, err)] returns [inl v] or [inr err].
    - a pointer that may be [nil] is an [option].
    - [log.Fatalf] (which ends the process through [os.Exit(1)]) and a
      run-time panic are the two abnormal ways out of a function, see
      [outcome].
    - what the libraries answer (the network, the entropy source, the JSON,
      PEM and X.509 decoders) is an explicit argument of the function that
      asks. *)

From Stdlib Require Import ZArith Lia.
From Stdlib.Strings Require Import Ascii String Byte.
From stdpp Require Import base option list strings gmap pretty.

Local Open Scope string_scope.
Local Open Scope list_scope.
Local Open Scope Z_scope.

(** ** Ways out of a Go function *)

Inductive outcome (A : Type) : Type :=
| Ret (a : A)            (* the function returned *)
| Exit (msg : string)    (* log.Fatalf msg: the process is terminated *)
| Panic (msg : string).  (* run-time panic *)
Arguments Ret {A} a.
Arguments Exit {A} msg.
Arguments Panic {A} msg.

Definition obind {A B} (m : outcome A) (k : A -> outcome B) : outcome B :=
  match m with
  | Ret a => k a
  | Exit msg => Exit msg
  | Panic msg => Panic msg
  end.

Notation "x <-! m ; k" := (obind m (fun x => k))
  (at level 100, m at next level, right associativity, only parsing).

Definition error : Type := string.

Definition nil_dereference : string :=
  "runtime error: invalid memory address or nil pointer dereference".
Definition index_out_of_range : string :=
  "runtime error: index out of range".

Definition newline : string := String "010"%char "".

(** ** 64-bit integers *)

Definition min_int64 : Z := - 2 ^ 63.
Definition max_int64 : Z := 2 ^ 63 - 1.

(** The value of an [int64] expression whose mathematical value is [z]. *)
Definition wrap64 (z : Z) : Z := (z + 2 ^ 63) mod 2 ^ 64 - 2 ^ 63.

Definition is_int64 (z : Z) : Prop := min_int64 <= z <= max_int64.

(** ** crypto/rand *)

(** What [rand.Reader] answers: [rd_Int max] to [rand.Int(rand.Reader, max)]
    for a positive [max], and [rd_Read n] to [rand.Read(b)] for a buffer of
    [n] bytes. *)
Record Reader : Type := mkReader {
  rd_Int : Z -> Z + error;
  rd_Read : nat -> list byte + error
}.

(** The contract of the library: [rand.Int] returns a value in [[0, max)],
    and [rand.Read] fills the whole buffer when it returns no error. *)
Definition Reader_ok (rd : Reader) : Prop :=
  (forall max v, 0 < max -> rd_Int rd max = inl v -> 0 <= v < max) /\
  (forall n bs, rd_Read rd n = inl bs -> length bs = n).

(** [rand.Int(rand.Reader, max)] panics when [max <= 0]. *)
Definition rand_Int (rd : Reader) (max : Z) : outcome (Z + error) :=
  if max <=? 0 then Panic "crypto/rand: argument to Int is <= 0"
  else Ret (rd_Int rd max).

(** [b := make([]byte, n); _, err = rand.Read(b)]. *)
Definition rand_Read (rd : Reader) (n : nat) : list byte + error :=
  rd_Read rd n.

(** ** encoding/base64, [StdEncoding] (RFC 4648, with padding) *)

Module base64.

Definition encodeStd : string :=
  "ABCDEFGHIJKLMNOPQRSTUVWXYZabcdefghijklmnopqrstuvwxyz0123456789+/".

Definition padChar : ascii := "="%char.

(** [enc.encode[i]] *)
Definition encodeChar (i : N) : ascii :=
  match String.get (N.to_nat i) encodeStd with
  | Some c => c
  | None => padChar
  end.

Fixpoint index_from (c : ascii) (s : string) (i : N) : option N :=
  match s with
  | EmptyString => None
  | String d s' => if Ascii.eqb c d then Some i else index_from c s' (N.succ i)
  end.

(** [enc.decodeMap[c]], [None] for a byte outside the alphabet. *)
Definition decodeChar (c : ascii) : option N := index_from c encodeStd 0.

(** A character of the alphabet, or the padding character. *)
Definition is_base64_char (c : ascii) : bool :=
  match decodeChar c with
  | Some _ => true
  | None => Ascii.eqb c padChar
  end.

Definition byte_of_N (n : N) : byte :=
  match Byte.of_N (n mod 256) with
  | Some b => b
  | None => x00
  end.

Definition b2N (b : byte) : N := Byte.to_N b.

(** The four 6-bit groups of up to three source bytes. *)
Definition sextet0 (a : byte) : N := N.shiftr (b2N a) 2.
Definition sextet1 (a b : byte) : N :=
  N.lor (N.land (N.shiftl (b2N a) 4) 63) (N.shiftr (b2N b) 4).
Definition sextet2 (b c : byte) : N :=
  N.lor (N.land (N.shiftl (b2N b) 2) 63) (N.shiftr (b2N c) 6).
Definition sextet3 (c : byte) : N := N.land (b2N c) 63.

Fixpoint Encode (src : list byte) : list ascii :=
  match src with
  | [] => []
  | [a] =>
      [encodeChar (sextet0 a); encodeChar (sextet1 a x00); padChar; padChar]
  | [a; b] =>
      [encodeChar (sextet0 a); encodeChar (sextet1 a b);
       encodeChar (sextet2 b x00); padChar]
  | a :: b :: c :: rest =>
      encodeChar (sextet0 a) :: encodeChar (sextet1 a b) ::
      encodeChar (sextet2 b c) :: encodeChar (sextet3 c) :: Encode rest
  end.

Definition EncodeToString (src : list byte) : string :=
  string_of_list_ascii (Encode src).

(** The bytes rebuilt from 6-bit groups. *)
Definition octet0 (s0 s1 : N) : byte :=
  byte_of_N (N.lor (N.shiftl s0 2) (N.shiftr s1 4)).
Definition octet1 (s1 s2 : N) : byte :=
  byte_of_N (N.lor (N.shiftl s1 4) (N.shiftr s2 2)).
Definition octet2 (s2 s3 : N) : byte :=
  byte_of_N (N.lor (N.shiftl s2 6) s3).

Definition is_newline (c : ascii) : bool :=
  Ascii.eqb c "010"%char || Ascii.eqb c "013"%char.

(** Decoding of a text without line breaks, four characters at a time;
    padding is accepted in the last group only. *)
Fixpoint decodeQuanta (s : list ascii) : option (list byte) :=
  match s with
  | [] => Some []
  | c0 :: c1 :: c2 :: c3 :: rest =>
      match decodeChar c0, decodeChar c1 with
      | Some s0, Some s1 =>
          match decodeChar c2, decodeChar c3, rest with
          | Some s2, Some s3, _ =>
              match decodeQuanta rest with
              | Some bs => Some (octet0 s0 s1 :: octet1 s1 s2 :: octet2 s2 s3 :: bs)
              | None => None
              end
          | Some s2, None, [] =>
              if Ascii.eqb c3 padChar then Some [octet0 s0 s1; octet1 s1 s2]
              else None
          | None, None, [] =>
              if Ascii.eqb c2 padChar && Ascii.eqb c3 padChar
              then Some [octet0 s0 s1] else None
          | _, _, _ => None
          end
      | _, _ => None
      end
  | _ => None
  end.

(** [enc.DecodeString]: carriage returns and line feeds are skipped. *)
Definition DecodeString (s : string) : list byte + error :=
  match decodeQuanta (List.filter (fun c => negb (is_newline c)) (list_ascii_of_string s)) with
  | Some bs => inl bs
  | None => inr "illegal base64 data"
  end.

End base64.

(** ** A state, trace and abort monad for package-level code *)

(** A computation over the package state [S] that emits events [E]: it
    yields the events in the order they happened, the state it leaves and
    the way it ended.  On [Exit] and [Panic] the state is the one at the
    moment of the abort. *)
Definition M (S E A : Type) : Type := S -> list E * S * outcome A.

Definition mret {S E A} (a : A) : M S E A := fun s => ([], s, Ret a).

Definition mbind {S E A B} (m : M S E A) (k : A -> M S E B) : M S E B :=
  fun s =>
    match m s with
    | (e1, s1, Ret a) =>
        match k a s1 with
        | (e2, s2, o) => (e1 ++ e2, s2, o)
        end
    | (e1, s1, Exit msg) => (e1, s1, Exit msg)
    | (e1, s1, Panic msg) => (e1, s1, Panic msg)
    end.

Definition emit {S E} (e : E) : M S E unit := fun s => ([e], s, Ret tt).
Definition mget {S E} : M S E S := fun s => ([], s, Ret s).
Definition mmodify {S E} (f : S -> S) : M S E unit := fun s => ([], f s, Ret tt).
Definition mlift {S E A} (o : outcome A) : M S E A := fun s => ([], s, o).

Notation "x <- m ;; k" := (mbind m (fun x => k))
  (at level 100, m at next level, right associativity, only parsing).
Notation "m ;; k" := (mbind m (fun _ => k))
  (at level 100, right associativity, only parsing).

Definition events {S E A} (r : list E * S * outcome A) : list E := r.1.1.
Definition final {S E A} (r : list E * S * outcome A) : S := r.1.2.
Definition ending {S E A} (r : list E * S * outcome A) : outcome A := r.2.

(** ** crypto/x509 and time *)

Record Certificate : Type := mkCertificate { Raw : list byte }.

Definition time_Minute : Z := 60 * 1000 * 1000 * 1000.

(** [time.Duration(interval) * time.Minute], an [int64] product. *)
Definition minutes (interval : Z) : Z := wrap64 (interval * time_Minute).

(** ** Package s3config *)

Module s3config.

Definition s3base : string :=
  "https://s3-ap-southeast-1.amazonaws.com/lantern-config/".

Record FallbackConfig : Type := mkFallbackConfig {
  Ip : string;
  Port : string;
  Protocol : string;
  AuthToken : string;
  Cert : string;
  X509Cert : option Certificate
}.

Record S3Config : Type := mkS3Config {
  SerialNo : Z;
  Controller : string;
  MinPoll : Z;
  MaxPoll : Z;
  Fallbacks : list (option FallbackConfig)   (* []*FallbackConfig *)
}.

(** The package variables that [fetch] reads and writes. *)
Record State : Type := mkState {
  s3url : string;
  minPoll : Z;
  maxPoll : Z
}.

(** The package variables once [init] has read the url file; [minPoll]
    and [maxPoll] have their declared values 5 and 15. *)
Definition init_state (urlfile_contents : string) : State :=
  {| s3url := s3base +:+ urlfile_contents +:+ "/config.json";
     minPoll := 5;
     maxPoll := 15 |}.

(** [init], given what [ioutil.ReadFile(urlfile)] yields: on success the
    goroutine [go fetch()] is started from the state returned (see
    [fetcher] below). *)
Definition init (urlfile : string + error) : outcome State :=
  match urlfile with
  | inr err =>
      Exit ("Unable to read .lantern-configurl.txt.  Make sure that you have a .lantern-configurl.txt in the folder where you're running lantern. %s" +:+ err)
  | inl bytes => Ret (init_state bytes)
  end.

Inductive Event : Type :=
| EvGet (url : string)            (* http.Get(url) was issued *)
| EvLog (msg : string)            (* log.Printf *)
| EvSend (config : S3Config)      (* ConfigUpdate <- config completed *)
| EvSleep (d : Z).                (* time.Sleep(d), d in nanoseconds *)

(** What [http.Get] answered: the status code and what
    [ioutil.ReadAll(resp.Body)] yields.  The deferred [resp.Body.Close()]
    has no effect on what follows and is left out. *)
Record Response : Type := mkResponse {
  StatusCode : Z;
  Body : string + error
}.

Definition is_get (e : Event) : bool :=
  match e with EvGet _ => true | _ => false end.
Definition is_log (e : Event) : bool :=
  match e with EvLog _ => true | _ => false end.
Definition is_send (e : Event) : bool :=
  match e with EvSend _ => true | _ => false end.
Definition is_sleep (e : Event) : bool :=
  match e with EvSleep _ => true | _ => false end.

Section fetch.

(** The network and the decoders of the standard library. *)
Variable http_Get : string -> Response + error.
Variable json_Unmarshal : string -> S3Config + error.
Variable pem_Decode : string -> option (list byte).
Variable x509_ParseCertificate : list byte -> Certificate + error.
Variable rd : Reader.

Definition parseCert (certData : string) : Certificate + error :=
  match pem_Decode certData with
  | None => inr "No PEM encoded certificate found"
  | Some block => x509_ParseCertificate block
  end.

Definition setX509Cert (cert : Certificate) (fallback : FallbackConfig) : FallbackConfig :=
  {| Ip := Ip fallback; Port := Port fallback; Protocol := Protocol fallback;
     AuthToken := AuthToken fallback; Cert := Cert fallback;
     X509Cert := Some cert |}.

(** An entry of [config.Fallbacks] that is not nil and whose certificate
    parses, and the entry with the certificate stored. *)
Definition parsable (o : option FallbackConfig) : Prop :=
  exists f cert, o = Some f /\ parseCert (Cert f) = inl cert.

Definition parses (o o' : option FallbackConfig) : Prop :=
  exists f cert,
    o = Some f /\ parseCert (Cert f) = inl cert /\ o' = Some (setX509Cert cert f).

(** The loop over [config.Fallbacks]: the result is [certFailure] and the
    entries as the loop leaves them (it writes [X509Cert] through the
    pointers). *)
Fixpoint parseCerts (fallbacks : list (option FallbackConfig))
  : M State Event (bool * list (option FallbackConfig)) :=
  match fallbacks with
  | [] => mret (false, [])
  | None :: _ => mlift (Panic nil_dereference)
  | Some fallback :: rest =>
      match parseCert (Cert fallback) with
      | inr err =>
          emit (EvLog ("Unable to parse cert: " +:+ err)) ;;
          mret (true, fallbacks)
      | inl cert =>
          r <- parseCerts rest ;;
          mret (r.1, Some (setX509Cert cert fallback) :: r.2)
      end
  end.

Definition setFallbacks (config : S3Config) (fbs : list (option FallbackConfig)) : S3Config :=
  {| SerialNo := SerialNo config; Controller := Controller config;
     MinPoll := MinPoll config; MaxPoll := MaxPoll config; Fallbacks := fbs |}.

Definition setPoll (config : S3Config) (s : State) : State :=
  {| s3url := s3url s; minPoll := MinPoll config; maxPoll := MaxPoll config |}.

(** Lines 69-103 of [fetch]: get, read, decode, check, publish. *)
Definition fetchConfig : M State Event unit :=
  s <- mget ;;
  emit (EvGet (s3url s)) ;;
  match http_Get (s3url s) with
  | inr err => emit (EvLog ("Unable to fetch s3 configuration: " +:+ err))
  | inl resp =>
      match Body resp with
      | inr err =>
          emit (EvLog ("Unable to read s3 configuration from response: " +:+ err))
      | inl body =>
          if negb (StatusCode resp =? 200) then
            emit (EvLog ("Unexpected response status: " +:+ pretty (StatusCode resp))) ;;
            emit (EvLog ("URL was: " +:+ s3url s)) ;;
            emit (EvLog ("--------- Body was: -----------" +:+ newline +:+ body
                         +:+ newline +:+ "-----------------"))
          else
            match json_Unmarshal body with
            | inr err =>
                emit (EvLog ("Unable to decode s3 configuration; " +:+ err))
            | inl config =>
                mmodify (setPoll config) ;;
                r <- parseCerts (Fallbacks config) ;;
                if negb r.1 then emit (EvSend (setFallbacks config r.2))
                else mret tt
            end
      end
  end.

(** Lines 104-110 of [fetch]: the value of [interval]. *)
Definition pollInterval : M State Event Z :=
  s <- mget ;;
  let maxRandomVal := wrap64 (maxPoll s - minPoll s) in
  r <- mlift (rand_Int rd maxRandomVal) ;;
  match r with
  | inr err => mlift (Exit ("Unable to update poll interval: " +:+ err))
  | inl randomVal => mret (wrap64 (randomVal + minPoll s))
  end.

Definition fetch : M State Event unit :=
  fetchConfig ;;
  interval <- pollInterval ;;
  emit (EvSleep (minutes interval)).

(** [init] starts [go fetch()]: the body of that goroutine. *)
Definition fetcher : M State Event unit := fetch.

(** The document of an iteration: the value of [config] after a
    successful [json.Unmarshal], when the iteration gets that far. *)
Definition decoded (s : State) : option S3Config :=
  match http_Get (s3url s) with
  | inr _ => None
  | inl resp =>
      match Body resp with
      | inr _ => None
      | inl body =>
          if negb (StatusCode resp =? 200) then None
          else match json_Unmarshal body with
               | inr _ => None
               | inl config => Some config
               end
      end
  end.

End fetch.

End s3config.

(** ** net/textproto and net/http *)

Module http.

Definition is_lower (c : ascii) : bool :=
  ((97 <=? N_of_ascii c) && (N_of_ascii c <=? 122))%N.
Definition is_upper (c : ascii) : bool :=
  ((65 <=? N_of_ascii c) && (N_of_ascii c <=? 90))%N.
Definition is_digit (c : ascii) : bool :=
  ((48 <=? N_of_ascii c) && (N_of_ascii c <=? 57))%N.

(** The bytes allowed in a header field name (RFC 7230 [token]). *)
Definition validHeaderFieldByte (c : ascii) : bool :=
  is_lower c || is_upper c || is_digit c ||
  bool_decide (c ∈ list_ascii_of_string "!#$%&'*+-.^_`|~").

Definition toLower : N := 32.

(** First letter and every letter after a dash in upper case, the others
    in lower case. *)
Fixpoint canonicalMIMEHeaderKey (upper : bool) (a : string) : string :=
  match a with
  | EmptyString => EmptyString
  | String c a' =>
      let c' :=
        if upper && is_lower c then ascii_of_N (N_of_ascii c - toLower)
        else if negb upper && is_upper c then ascii_of_N (N_of_ascii c + toLower)
        else c in
      String c' (canonicalMIMEHeaderKey (Ascii.eqb c' "-"%char) a')
  end.

(** [textproto.CanonicalMIMEHeaderKey]: a key with a byte that is not
    allowed in a field name is returned unchanged. *)
Definition CanonicalMIMEHeaderKey (s : string) : string :=
  if forallb validHeaderFieldByte (list_ascii_of_string s)
  then canonicalMIMEHeaderKey true s else s.

(** [http.Header] is [map[string][]string]. *)
Definition Header_Set (key value : string) (h : gmap string (list string))
  : gmap string (list string) :=
  <[CanonicalMIMEHeaderKey key := [value]]> h.

Record Request : Type := mkRequest {
  Method : string;
  URL : string;               (* req.URL, as its String() *)
  Header : gmap string (list string);
  Body : list byte
}.

(** [req.Header.Set(key, value)] on [req *http.Request]. *)
Definition setHeader (key value : string) (req : Request) : Request :=
  {| Method := Method req; URL := URL req;
     Header := Header_Set key value (Header req); Body := Body req |}.

(** The server's [http.ResponseWriter]: whether the connection was
    hijacked, the status written and the chunks of body written. *)
Record ResponseWriter : Type := mkResponseWriter {
  hijacked : bool;
  status : option Z;
  written : list string
}.

(** What the server hands to a handler. *)
Definition newResponse : ResponseWriter :=
  {| hijacked := false; status := None; written := [] |}.

(** [resp.WriteHeader(code)]: ignored on a hijacked connection and when
    a header was already written. *)
Definition WriteHeader (code : Z) (w : ResponseWriter) : ResponseWriter :=
  if hijacked w then w
  else match status w with
       | Some _ => w
       | None => {| hijacked := false; status := Some code; written := written w |}
       end.

(** [resp.Write(data)]: [ErrHijacked] and nothing written on a hijacked
    connection; an implicit [WriteHeader(200)] otherwise. *)
Definition Write (data : string) (w : ResponseWriter) : ResponseWriter :=
  if hijacked w then w
  else let w' := WriteHeader 200 w in
       {| hijacked := false; status := status w'; written := written w' ++ [data] |}.

(** [resp.(http.Hijacker).Hijack()]; the server's writer implements
    [http.Hijacker].  A connection already hijacked gives [ErrHijacked].
    Otherwise the server marks the connection hijacked before anything can
    fail: [answer] is the error it then meets, if any, and in either case
    the writer no longer takes a status or a body. *)
Definition Hijack (answer : option error) (w : ResponseWriter)
  : ResponseWriter * option error :=
  if hijacked w then (w, Some "http: connection has been hijacked")
  else ({| hijacked := true; status := status w; written := written w |}, answer).

End http.

(** ** Package proxy *)

Module proxy.

Definition x_lantern_auth_token : string := "X-LANTERN-AUTH-TOKEN".
Definition x_random_length_header : string := "X_LANTERN-RANDOM-LENGTH-HEADER".

Record TlsConfig : Type := mkTlsConfig {
  RootCAs : list Certificate;
  InsecureSkipVerify : bool
}.

Record Fallback : Type := mkFallback {
  FallbackConfig : s3config.FallbackConfig;   (* embedded struct *)
  tlsConfig : option TlsConfig                (* *tls.Config *)
}.

(** The zero value of [Fallback], as [make] fills a new slice. *)
Definition zeroFallback : Fallback :=
  {| FallbackConfig :=
       {| s3config.Ip := ""; s3config.Port := ""; s3config.Protocol := "";
          s3config.AuthToken := ""; s3config.Cert := "";
          s3config.X509Cert := None |};
     tlsConfig := None |}.

(** [pool.AddCert(cert)]. *)
Definition AddCert (cert : option Certificate) (pool : list Certificate)
  : outcome (list Certificate) :=
  match cert with
  | None => Panic "adding nil Certificate to CertPool"
  | Some c => Ret (pool ++ [c])
  end.

(** The body of [for i, fallbackConfig := range config.Fallbacks], from
    index [i] on. *)
Fixpoint updateLoop (i : nat) (configs : list (option s3config.FallbackConfig))
    (fallbacks : list Fallback) : outcome (list Fallback) :=
  match configs with
  | [] => Ret fallbacks
  | None :: _ => Panic nil_dereference
  | Some fallbackConfig :: rest =>
      pool <-! AddCert (s3config.X509Cert fallbackConfig) [];
      let tlsConfig := {| RootCAs := pool; InsecureSkipVerify := true |} in
      if bool_decide (i < length fallbacks)%nat then
        updateLoop (S i) rest
          (<[i := {| FallbackConfig := fallbackConfig;
                     tlsConfig := Some tlsConfig |}]> fallbacks)
      else Panic index_out_of_range
  end.

(** [doUpdateFallbacks] once [config] has been received from
    [s3config.ConfigUpdate]: the new value of the package variable
    [fallbacks].  The mutex is held throughout. *)
Definition doUpdateFallbacks (config : s3config.S3Config) (fallbacks : list Fallback)
  : outcome (list Fallback) :=
  updateLoop 0 (s3config.Fallbacks config)
    (replicate (length (s3config.Fallbacks config)) zeroFallback).

(** The package variable [fallbacks] before any update: a nil slice. *)
Definition no_fallbacks : list Fallback := [].

Definition getFallback (fallbacks : list Fallback) : outcome Fallback :=
  if (length fallbacks =? 0)%nat then Exit "No fallback configured!"
  else match fallbacks !! 0%nat with
       | Some fallback => Ret fallback
       | None => Panic index_out_of_range
       end.

(** The upstream connection: where it goes, how it is secured and the
    requests written to it so far. *)
Record Conn : Type := mkConn {
  remoteAddr : string;
  connConfig : option TlsConfig;
  sent : list http.Request
}.

(** [req.WriteProxy(connOut)]: the request, in proxy form, is written to
    the connection.  The wire format is that of net/http and is not
    modelled: the connection records the request it was given. *)
Definition WriteProxy (req : http.Request) (c : Conn) : Conn :=
  {| remoteAddr := remoteAddr c; connConfig := connConfig c;
     sent := sent c ++ [req] |}.

(** What is observable of one call of [handleLocalRequest]. *)
Record Session : Type := mkSession {
  resp : http.ResponseWriter;
  connOut : option Conn;       (* the result of tls.Dial, when it succeeded *)
  piping : bool;               (* pipe(connIn, connOut) was started *)
  logged : list string
}.

Definition respondBadGateway (req : http.Request) (msg : string) (s : Session) : Session :=
  {| resp := http.Write ("Bad Gateway: " +:+ http.URL req +:+ " - " +:+ msg)
               (http.WriteHeader 502 (resp s));
     connOut := connOut s;
     piping := piping s;
     logged := logged s ++ [msg] |}.

(** What the network answers to one session: the error of [tls.Dial] and
    the error of [Hijack], if any. *)
Record Net : Type := mkNet {
  tls_Dial : string -> string -> option TlsConfig -> option error;
  hijack_answer : option error
}.

Section session.

Variable net : Net.
Variable rd : Reader.

Definition randomLengthString : outcome (string + error) :=
  r <-! rand_Int rd 100;
  match r with
  | inr err => Ret (inr err)
  | inl bLength =>
      if bLength <? 0 then Panic "runtime error: makeslice: len out of range"
      else match rand_Read rd (Z.to_nat bLength) with
           | inr err => Ret (inr err)
           | inl b => Ret (inl (base64.EncodeToString b))
           end
  end.

Definition handleLocalRequest (fallbacks : list Fallback)
    (resp : http.ResponseWriter) (req : http.Request) : outcome Session :=
  fallback <-! getFallback fallbacks;
  let upstreamAddr :=
    s3config.Ip (FallbackConfig fallback) +:+ ":" +:+
    s3config.Port (FallbackConfig fallback) in
  let s0 := {| resp := resp; connOut := None; piping := false; logged := [] |} in
  match tls_Dial net "tcp" upstreamAddr (tlsConfig fallback) with
  | Some err =>
      let msg := "Unable to open socket to upstream proxy: " +:+ err in
      Ret (respondBadGateway req msg s0)
  | None =>
      let conn := {| remoteAddr := upstreamAddr;
                     connConfig := tlsConfig fallback; sent := [] |} in
      match http.Hijack (hijack_answer net) resp with
      | (resp1, Some err) =>
          let msg := "Unable to access underlying connection from client: " +:+ err in
          Ret (respondBadGateway req msg
                 {| resp := resp1; connOut := Some conn; piping := false; logged := [] |})
      | (resp1, None) =>
          r <-! randomLengthString;
          match r with
          | inr err =>
              let msg := "Unable to generate random length header: " +:+ err in
              Ret (respondBadGateway req msg
                     {| resp := resp1; connOut := Some conn; piping := false;
                        logged := [] |})
          | inl str =>
              let req1 := http.setHeader x_random_length_header str req in
              let req2 := http.setHeader x_lantern_auth_token
                            (s3config.AuthToken (FallbackConfig fallback)) req1 in
              Ret {| resp := resp1;
                     connOut := Some (WriteProxy req2 conn);
                     piping := true;
                     logged := [] |}
          end
      end
  end.

End session.

(** The handler answered 502 with a body that names [url] and [reason]:
    [WriteHeader(502)] and [Write(body)] were taken by a response that is
    not hijacked.  This is what net/http is given to send; how it reaches
    the client (no body for a HEAD request, nothing once the write deadline
    of the server has passed) is the library's and is not modelled. *)
Definition answered_bad_gateway (s : Session) (url reason : string) : Prop :=
  http.hijacked (resp s) = false /\
  http.status (resp s) = Some 502 /\
  http.written (resp s) = ["Bad Gateway: " +:+ url +:+ " - " +:+ reason].

(** Nothing was written to the upstream connection, if there is one, and
    no copying was started. *)
Definition nothing_sent_upstream (s : Session) : Prop :=
  piping s = false /\
  match connOut s with
  | None => True
  | Some c => sent c = []
  end.

End proxy.

(** ** The hand-off between the two packages *)

(** [s3config.ConfigUpdate] is an unbuffered channel read by
    [doUpdateFallbacks] only, which [StartLocal] calls once and
    [updateFallbacks] calls for ever after: every config [fetch] sends is
    applied to the fallback list, in order. *)
Fixpoint updateFallbacks (tr : list s3config.Event) (fallbacks : list proxy.Fallback)
  : outcome (list proxy.Fallback) :=
  match tr with
  | [] => Ret fallbacks
  | s3config.EvSend config :: tr' =>
      fallbacks' <-! proxy.doUpdateFallbacks config fallbacks;
      updateFallbacks tr' fallbacks'
  | _ :: tr' => updateFallbacks tr' fallbacks
  end.

(** ** Sample inputs *)

Module sample.

Definition pem_text : string :=
  "-----BEGIN CERTIFICATE----- MIIBCg== -----END CERTIFICATE-----".
Definition der : list byte := [x30; x82; x01; x0a].

(** A PEM decoder that knows one block, and an X.509 parser that accepts
    what it is given. *)
Definition pem_Decode (text : string) : option (list byte) :=
  if String.eqb text pem_text then Some der else None.
Definition x509_ParseCertificate (block : list byte) : Certificate + error :=
  inl {| Raw := block |}.

Definition fallback (ip token cert : string) : s3config.FallbackConfig :=
  {| s3config.Ip := ip; s3config.Port := "443"; s3config.Protocol := "tcp";
     s3config.AuthToken := token; s3config.Cert := cert;
     s3config.X509Cert := None |}.

Definition document (minpoll maxpoll : Z)
    (fallbacks : list (option s3config.FallbackConfig)) : s3config.S3Config :=
  {| s3config.SerialNo := 1; s3config.Controller := "controller";
     s3config.MinPoll := minpoll; s3config.MaxPoll := maxpoll;
     s3config.Fallbacks := fallbacks |}.

(** Two fallbacks with good certificates. *)
Definition doc_good : s3config.S3Config :=
  document 5 15 [Some (fallback "10.0.0.1" "alpha" pem_text);
                 Some (fallback "10.0.0.2" "beta" pem_text)].

(** A good fallback followed by one whose certificate is not PEM. *)
Definition doc_bad_cert : s3config.S3Config :=
  document 1 2 [Some (fallback "10.0.0.1" "alpha" pem_text);
                Some (fallback "10.0.0.2" "beta" "not a certificate")].

(** No fallbacks at all. *)
Definition doc_empty : s3config.S3Config := document 5 15 [].

(** [minpoll < maxpoll], but [maxpoll - minpoll] does not fit in an int. *)
Definition doc_wide : s3config.S3Config := document min_int64 1 [].

(** [minpoll > maxpoll] the usual way. *)
Definition doc_inverted : s3config.S3Config :=
  document 15 5 [Some (fallback "10.0.0.1" "alpha" pem_text)].

(** [minpoll > maxpoll], and [maxpoll - minpoll] wraps around to [1]. *)
Definition doc_inverted_wide : s3config.S3Config := document max_int64 min_int64 [].

(** A server that answers 200 with the given body, and one that is down. *)
Definition http_Get (body : string) (url : string) : s3config.Response + error :=
  inl {| s3config.StatusCode := 200; s3config.Body := inl body |}.
Definition http_down (url : string) : s3config.Response + error :=
  inr "dial tcp: connection refused".

(** A JSON decoder that knows the documents above by the name of their
    body. *)
Definition json_Unmarshal (body : string) : s3config.S3Config + error :=
  if String.eqb body "good" then inl doc_good
  else if String.eqb body "bad-cert" then inl doc_bad_cert
  else if String.eqb body "empty" then inl doc_empty
  else if String.eqb body "wide" then inl doc_wide
  else if String.eqb body "inverted" then inl doc_inverted
  else if String.eqb body "inverted-wide" then inl doc_inverted_wide
  else inr "invalid character".

(** An entropy source that always draws the largest value and fills
    buffers with one byte. *)
Definition rd : Reader :=
  {| rd_Int := fun max => inl (max - 1);
     rd_Read := fun n => inl (repeat x2a n) |}.

(** An entropy source that fails. *)
Definition rd_broken : Reader :=
  {| rd_Int := fun _ => inr "unexpected EOF";
     rd_Read := fun _ => inr "unexpected EOF" |}.

Definition s0 : s3config.State := s3config.init_state "abc".

(** [doc_good] as the fetcher sends it, with the parsed certificates. *)
Definition doc_good_sent : s3config.S3Config :=
  document 5 15
    [Some (s3config.setX509Cert {| Raw := der |} (fallback "10.0.0.1" "alpha" pem_text));
     Some (s3config.setX509Cert {| Raw := der |} (fallback "10.0.0.2" "beta" pem_text))].

Definition trusted (f : s3config.FallbackConfig) : proxy.Fallback :=
  {| proxy.FallbackConfig := s3config.setX509Cert {| Raw := der |} f;
     proxy.tlsConfig := Some {| proxy.RootCAs := [{| Raw := der |}];
                                proxy.InsecureSkipVerify := true |} |}.

(** The fallback list after [doc_good_sent] was applied. *)
Definition fallbacks : list proxy.Fallback :=
  [trusted (fallback "10.0.0.1" "alpha" pem_text);
   trusted (fallback "10.0.0.2" "beta" pem_text)].

Definition request : http.Request :=
  {| http.Method := "GET"; http.URL := "http://example.com/index.html";
     http.Header := {[ "Accept" := ["*/*"] ]}; http.Body := [] |}.

(** An upstream that accepts, one that refuses, and a client connection
    whose hijack meets an error. *)
Definition net_ok : proxy.Net :=
  {| proxy.tls_Dial := fun _ _ _ => None; proxy.hijack_answer := None |}.
Definition net_refused : proxy.Net :=
  {| proxy.tls_Dial := fun _ _ _ => Some "connection refused";
     proxy.hijack_answer := None |}.
Definition net_no_hijack : proxy.Net :=
  {| proxy.tls_Dial := fun _ _ _ => None;
     proxy.hijack_answer := Some "connection closed" |}.

Definition fetch (body : string) : M s3config.State s3config.Event unit :=
  s3config.fetch (http_Get body) json_Unmarshal pem_Decode x509_ParseCertificate rd.

(** A document with a JSON null among its fallbacks, and a decoder that
    knows it. *)
Definition doc_null : s3config.S3Config :=
  document 7 9 [Some (fallback "10.0.0.1" "alpha" pem_text); None].
Definition json_null (body : string) : s3config.S3Config + error := inl doc_null.

(** The session of [request] through [net_ok] with [rd] and [fallbacks]. *)
Definition token : string := base64.EncodeToString (repeat x2a 99).
Definition forwarded : http.Request :=
  http.setHeader proxy.x_lantern_auth_token "alpha"
    (http.setHeader proxy.x_random_length_header token request).
Definition upstream : proxy.Conn :=
  {| proxy.remoteAddr := "10.0.0.1:443";
     proxy.connConfig := Some {| proxy.RootCAs := [{| Raw := der |}];
                                 proxy.InsecureSkipVerify := true |};
     proxy.sent := [forwarded] |}.
Definition session : proxy.Session :=
  {| proxy.resp := {| http.hijacked := true; http.status := None;
                      http.written := [] |};
     proxy.connOut := Some upstream;
     proxy.piping := true;
     proxy.logged := [] |}.

End sample.

(** * Properties *)

(** ** Base64: decoding undoes encoding *)

Section base64_facts.

Import base64.
Local Open Scope N_scope.

Lemma lor_disjoint (x y k : N) :
  x mod 2 ^ k = 0 -> y < 2 ^ k -> N.lor x y = x + y.
Proof.
  intros Hx Hy.
  assert (Hs : x = N.shiftl (x / 2 ^ k) k).
  { rewrite N.shiftl_mul_pow2.
    pose proof (N.div_mod x (2 ^ k)) as Hdm.
    rewrite Hx, N.add_0_r, N.mul_comm in Hdm.
    apply Hdm. apply N.pow_nonzero. discriminate. }
  assert (Hd : N.land x y = 0).
  { apply N.bits_inj. intros n. rewrite N.land_spec, N.bits_0.
    destruct (N.lt_ge_cases n k) as [Hlt | Hge].
    - rewrite Hs, N.shiftl_spec_low by assumption. reflexivity.
    - rewrite <- (N.mod_small y (2 ^ k)) by assumption.
      rewrite N.mod_pow2_bits_high by assumption.
      apply Bool.andb_false_r. }
  rewrite <- N.lxor_lor by assumption.
  symmetry. apply N.add_nocarry_lxor. assumption.
Qed.

Lemma land_63 (x : N) : N.land x 63 = x mod 64.
Proof. change 63 with (N.ones 6). apply N.land_ones. Qed.

Lemma b2N_bound (a : byte) : b2N a < 256.
Proof. unfold b2N. pose proof (Byte.to_N_bounded a). lia. Qed.

Lemma byte_of_b2N (a : byte) : byte_of_N (b2N a) = a.
Proof.
  unfold byte_of_N, b2N.
  rewrite N.mod_small by apply b2N_bound.
  now rewrite Byte.of_to_N.
Qed.

Ltac euclid := zify; Z.to_euclidean_division_equations; lia.

Lemma sextet0_eq (a : byte) : sextet0 a = b2N a / 4.
Proof. unfold sextet0. now rewrite N.shiftr_div_pow2. Qed.

Lemma sextet1_eq (a b : byte) :
  sextet1 a b = (b2N a * 16) mod 64 + b2N b / 16.
Proof.
  unfold sextet1.
  rewrite land_63, N.shiftl_mul_pow2, N.shiftr_div_pow2.
  change (2 ^ 4) with 16.
  pose proof (b2N_bound b).
  apply (lor_disjoint _ _ 4); change (2 ^ 4) with 16; euclid.
Qed.

Lemma sextet2_eq (b c : byte) :
  sextet2 b c = (b2N b * 4) mod 64 + b2N c / 64.
Proof.
  unfold sextet2.
  rewrite land_63, N.shiftl_mul_pow2, N.shiftr_div_pow2.
  change (2 ^ 2) with 4. change (2 ^ 6) with 64.
  pose proof (b2N_bound c).
  apply (lor_disjoint _ _ 2); change (2 ^ 2) with 4; euclid.
Qed.

Lemma sextet3_eq (c : byte) : sextet3 c = b2N c mod 64.
Proof. apply land_63. Qed.

Lemma sextet0_bound a : sextet0 a < 64.
Proof. rewrite sextet0_eq. pose proof (b2N_bound a). euclid. Qed.

Lemma sextet1_bound a b : sextet1 a b < 64.
Proof. rewrite sextet1_eq. pose proof (b2N_bound a). pose proof (b2N_bound b). euclid. Qed.

Lemma sextet2_bound b c : sextet2 b c < 64.
Proof. rewrite sextet2_eq. pose proof (b2N_bound b). pose proof (b2N_bound c). euclid. Qed.

Lemma sextet3_bound c : sextet3 c < 64.
Proof. rewrite sextet3_eq. euclid. Qed.

Lemma octet0_sextets (a b : byte) : octet0 (sextet0 a) (sextet1 a b) = a.
Proof.
  unfold octet0.
  rewrite N.shiftl_mul_pow2, N.shiftr_div_pow2, sextet0_eq, sextet1_eq.
  change (2 ^ 2) with 4. change (2 ^ 4) with 16.
  pose proof (b2N_bound a). pose proof (b2N_bound b).
  rewrite (lor_disjoint _ _ 2) by (change (2 ^ 2) with 4; euclid).
  replace (b2N a / 4 * 4 + ((b2N a * 16) mod 64 + b2N b / 16) / 16) with (b2N a)
    by euclid.
  apply byte_of_b2N.
Qed.

Lemma octet1_sextets (a b c : byte) : octet1 (sextet1 a b) (sextet2 b c) = b.
Proof.
  unfold octet1, byte_of_N.
  rewrite N.shiftl_mul_pow2, N.shiftr_div_pow2, sextet1_eq, sextet2_eq.
  change (2 ^ 2) with 4. change (2 ^ 4) with 16.
  pose proof (b2N_bound a). pose proof (b2N_bound b). pose proof (b2N_bound c).
  rewrite (lor_disjoint _ _ 4) by (change (2 ^ 4) with 16; euclid).
  replace ((((b2N a * 16) mod 64 + b2N b / 16) * 16 +
            ((b2N b * 4) mod 64 + b2N c / 64) / 4) mod 256) with (b2N b)
    by euclid.
  unfold b2N. now rewrite Byte.of_to_N.
Qed.

Lemma octet2_sextets (b c : byte) : octet2 (sextet2 b c) (sextet3 c) = c.
Proof.
  unfold octet2, byte_of_N.
  rewrite N.shiftl_mul_pow2, sextet2_eq, sextet3_eq.
  change (2 ^ 6) with 64.
  pose proof (b2N_bound b). pose proof (b2N_bound c).
  rewrite (lor_disjoint _ _ 6) by (change (2 ^ 6) with 64; euclid).
  replace ((((b2N b * 4) mod 64 + b2N c / 64) * 64 + b2N c mod 64) mod 256)
    with (b2N c) by euclid.
  unfold b2N. now rewrite Byte.of_to_N.
Qed.

(** The alphabet: 64 distinct characters, none of them the padding
    character or a line break. *)
Lemma alphabet_roundtrip (i : N) :
  i < 64 ->
  decodeChar (encodeChar i) = Some i /\
  is_newline (encodeChar i) = false.
Proof.
  intros Hi.
  rewrite <- (N2Nat.id i).
  assert (Hn : (N.to_nat i < 64)%nat) by lia.
  generalize dependent (N.to_nat i). clear i Hi. intros n Hn.
  do 64 (destruct n as [| n]; [split; vm_compute; reflexivity |]).
  lia.
Qed.

Lemma decodeChar_encodeChar (i : N) : i < 64 -> decodeChar (encodeChar i) = Some i.
Proof. intros Hi. apply alphabet_roundtrip, Hi. Qed.

Lemma encodeChar_not_newline (i : N) : i < 64 -> is_newline (encodeChar i) = false.
Proof. intros Hi. apply alphabet_roundtrip, Hi. Qed.

Lemma decodeChar_padChar : decodeChar padChar = None.
Proof. reflexivity. Qed.

(** Lists three elements at a time, as [Encode] consumes them. *)
Lemma list_ind3 {A} (P : list A -> Prop) :
  P [] ->
  (forall a, P [a]) ->
  (forall a b, P [a; b]) ->
  (forall a b c l, P l -> P (a :: b :: c :: l)) ->
  forall l, P l.
Proof.
  intros H0 H1 H2 H3.
  fix IH 1.
  intros [| a [| b [| c l]]].
  - exact H0.
  - apply H1.
  - apply H2.
  - apply H3, IH.
Qed.

Create HintDb b64.
Local Hint Resolve sextet0_bound sextet1_bound sextet2_bound sextet3_bound : b64.

Lemma decodeQuanta_Encode (src : list byte) : decodeQuanta (Encode src) = Some src.
Proof.
  induction src as [| a | a b | a b c rest IH] using list_ind3.
  - reflexivity.
  - cbn [Encode decodeQuanta].
    rewrite !decodeChar_encodeChar by auto with b64.
    rewrite decodeChar_padChar. cbn.
    now rewrite octet0_sextets.
  - cbn [Encode decodeQuanta].
    rewrite !decodeChar_encodeChar by auto with b64.
    rewrite decodeChar_padChar. cbn.
    now rewrite octet0_sextets, octet1_sextets.
  - cbn [Encode decodeQuanta].
    rewrite !decodeChar_encodeChar by auto with b64.
    rewrite IH.
    now rewrite octet0_sextets, octet1_sextets, octet2_sextets.
Qed.

Lemma Encode_no_newline (src : list byte) :
  List.filter (fun c => negb (is_newline c)) (Encode src) = Encode src.
Proof.
  induction src as [| a | a b | a b c rest IH] using list_ind3.
  - reflexivity.
  - cbn [Encode List.filter].
    rewrite !encodeChar_not_newline by auto with b64. reflexivity.
  - cbn [Encode List.filter].
    rewrite !encodeChar_not_newline by auto with b64. reflexivity.
  - cbn [Encode List.filter].
    rewrite !encodeChar_not_newline by auto with b64.
    cbn. now rewrite IH.
Qed.

Lemma DecodeString_EncodeToString (src : list byte) :
  DecodeString (EncodeToString src) = inl src.
Proof.
  unfold DecodeString, EncodeToString.
  rewrite list_ascii_of_string_of_list_ascii, Encode_no_newline.
  now rewrite decodeQuanta_Encode.
Qed.

End base64_facts.

Example base64_rfc4648_encode :
  base64.EncodeToString [x66] = "Zg==" /\
  base64.EncodeToString [x66; x6f] = "Zm8=" /\
  base64.EncodeToString [x66; x6f; x6f] = "Zm9v" /\
  base64.EncodeToString [x66; x6f; x6f; x62] = "Zm9vYg==" /\
  base64.EncodeToString [x66; x6f; x6f; x62; x61; x72] = "Zm9vYmFy" /\
  base64.EncodeToString [xfb; xff; xbe] = "+/++".
Proof. repeat split; reflexivity. Qed.

Example base64_rfc4648_decode :
  base64.DecodeString "Zm9vYg==" = inl [x66; x6f; x6f; x62] /\
  base64.DecodeString "Zm9vYmE=" = inl [x66; x6f; x6f; x62; x61] /\
  base64.DecodeString ("Zm9v" +:+ newline +:+ "YmFy")
    = inl [x66; x6f; x6f; x62; x61; x72] /\
  base64.DecodeString "Zm9=v" = inr "illegal base64 data" /\
  base64.DecodeString "Zm9" = inr "illegal base64 data".
Proof. repeat split; reflexivity. Qed.

Example canonical_header_keys :
  http.CanonicalMIMEHeaderKey proxy.x_lantern_auth_token = "X-Lantern-Auth-Token" /\
  http.CanonicalMIMEHeaderKey proxy.x_random_length_header
    = "X_lantern-Random-Length-Header" /\
  http.CanonicalMIMEHeaderKey "content-type" = "Content-Type" /\
  http.CanonicalMIMEHeaderKey "not a key" = "not a key".
Proof. repeat split; reflexivity. Qed.

(** ** The fetcher *)

Section fetch_facts.

Import s3config.

Variable http_Get : string -> Response + error.
Variable json_Unmarshal : string -> S3Config + error.
Variable pem_Decode : string -> option (list byte).
Variable x509_ParseCertificate : list byte -> Certificate + error.

Local Abbreviation parseCert := (parseCert pem_Decode x509_ParseCertificate).
Local Abbreviation parseCerts := (parseCerts pem_Decode x509_ParseCertificate).
Local Abbreviation decoded := (decoded http_Get json_Unmarshal).
Local Abbreviation fetchConfig :=
  (fetchConfig http_Get json_Unmarshal pem_Decode x509_ParseCertificate).

(** The certificate loop leaves the package variables alone and only
    logs. *)
Lemma parseCerts_frame (fbs : list (option FallbackConfig)) (s : State) :
  final (parseCerts fbs s) = s /\
  forallb is_log (events (parseCerts fbs s)) = true.
Proof.
  induction fbs as [| [f |] rest IH]; cbn.
  - split; reflexivity.
  - destruct (parseCert (Cert f)) as [cert | err]; cbn.
    + unfold mbind. destruct IH as [IHs IHe].
      destruct (parseCerts rest s) as [[ev s'] [r | msg | msg]]; cbn in *;
        subst; rewrite ?app_nil_r; split; auto.
    + split; reflexivity.
  - split; reflexivity.
Qed.

(** When the loop ends without [certFailure], every entry is a non-nil
    pointer whose certificate parsed, and the loop has stored it. *)
Lemma parseCerts_ok (fbs fbs' : list (option FallbackConfig)) (s : State) :
  ending (parseCerts fbs s) = Ret (false, fbs') ->
  Forall2 (fun o o' => exists f cert,
             o = Some f /\ parseCert (Cert f) = inl cert /\
             o' = Some (setX509Cert cert f)) fbs fbs'.
Proof.
  revert fbs'. induction fbs as [| [f |] rest IH]; intros fbs'; cbn.
  - intros [= <-]. constructor.
  - destruct (parseCert (Cert f)) as [cert | err] eqn:Hc; cbn.
    + unfold mbind.
      destruct (parseCerts rest s) as [[ev s'] [[fl rest'] | msg | msg]] eqn:Hr;
        cbn; try discriminate.
      intros [= -> <-]. constructor.
      * exists f, cert. auto.
      * apply IH. reflexivity.
    + discriminate.
  - discriminate.
Qed.

(** The loop never ends by [log.Fatalf]. *)
Lemma parseCerts_no_exit (fbs : list (option FallbackConfig)) (s : State) msg :
  ending (parseCerts fbs s) <> Exit msg.
Proof.
  induction fbs as [| [f |] rest IH]; cbn; try discriminate.
  destruct (parseCert (Cert f)) as [cert | err]; cbn; try discriminate.
  unfold mbind.
  destruct (parseCerts rest s) as [[ev s'] [[fl rest'] | m | m]]; cbn in *;
    try discriminate.
  exact IH.
Qed.

(** One unparsable certificate is enough for the loop not to end without
    [certFailure]. *)
Lemma parseCerts_bad (fbs fbs' : list (option FallbackConfig)) (s : State) bad err :
  In (Some bad) fbs ->
  parseCert (Cert bad) = inr err ->
  ending (parseCerts fbs s) <> Ret (false, fbs').
Proof.
  intros Hin Hbad Hend.
  apply parseCerts_ok in Hend.
  apply list_elem_of_In in Hin.
  destruct (proj1 (list_elem_of_lookup _ _) Hin) as [i Hi].
  destruct (Forall2_lookup_l _ _ _ _ _ Hend Hi) as (o' & _ & f & cert & Hf & Hc & _).
  injection Hf as <-. congruence.
Qed.

(** An iteration that does not get a decoded document changes nothing and
    only logs. *)
Lemma fetchConfig_undecoded (s : State) :
  decoded s = None ->
  exists logs,
    fetchConfig s = (EvGet (s3url s) :: logs, s, Ret tt) /\
    forallb is_log logs = true.
Proof.
  unfold s3config.decoded, s3config.fetchConfig, mbind, mget, emit. cbn.
  destruct (http_Get (s3url s)) as [resp | err]; cbn.
  - destruct (Body resp) as [body | err]; cbn.
    + destruct (negb (StatusCode resp =? 200)); cbn.
      * intros _. eexists. split; reflexivity.
      * destruct (json_Unmarshal body) as [config | err]; cbn.
        -- discriminate.
        -- intros _. eexists. split; reflexivity.
    + intros _. eexists. split; reflexivity.
  - intros _. eexists. split; reflexivity.
Qed.

(** An iteration that decodes a document stores its poll bounds, then runs
    the certificate loop, then sends the document unless [certFailure]. *)
Lemma fetchConfig_decoded (s : State) (config : S3Config) :
  decoded s = Some config ->
  fetchConfig s =
    match parseCerts (Fallbacks config) (setPoll config s) with
    | (logs, s', Ret (false, fbs')) =>
        (EvGet (s3url s) :: logs ++ [EvSend (setFallbacks config fbs')], s', Ret tt)
    | (logs, s', Ret (true, _)) => (EvGet (s3url s) :: logs, s', Ret tt)
    | (logs, s', Exit msg) => (EvGet (s3url s) :: logs, s', Exit msg)
    | (logs, s', Panic msg) => (EvGet (s3url s) :: logs, s', Panic msg)
    end.
Proof.
  unfold s3config.decoded, s3config.fetchConfig, mbind, mget, emit, mmodify. cbn.
  destruct (http_Get (s3url s)) as [resp | err]; cbn; [| discriminate].
  destruct (Body resp) as [body | err]; cbn; [| discriminate].
  destruct (negb (StatusCode resp =? 200)); cbn; [discriminate |].
  destruct (json_Unmarshal body) as [c | err]; cbn; [| discriminate].
  intros [= ->].
  destruct (parseCerts (Fallbacks config) (setPoll config s))
    as [[logs s'] [[[|] fbs'] | msg | msg]]; cbn; rewrite ?app_nil_r; reflexivity.
Qed.

(** In every case: one GET first, then logs, then at most one send; and
    the url is never changed. *)
Lemma fetchConfig_shape (s : State) :
  exists logs sends,
    events (fetchConfig s) = EvGet (s3url s) :: logs ++ sends /\
    forallb is_log logs = true /\
    (sends = [] \/ exists config, sends = [EvSend config] /\
                                  ending (fetchConfig s) = Ret tt).
Proof.
  destruct (decoded s) as [config |] eqn:Hd.
  - rewrite (fetchConfig_decoded _ _ Hd).
    pose proof (parseCerts_frame (Fallbacks config) (setPoll config s)) as [_ Hlogs].
    destruct (parseCerts (Fallbacks config) (setPoll config s))
      as [[logs s'] [[[|] fbs'] | msg | msg]]; cbn in *.
    + exists logs, []. rewrite app_nil_r. repeat split; auto.
    + exists logs, [EvSend (setFallbacks config fbs')]. repeat split; eauto.
    + exists logs, []. rewrite app_nil_r. repeat split; auto.
    + exists logs, []. rewrite app_nil_r. repeat split; auto.
  - destruct (fetchConfig_undecoded _ Hd) as (logs & -> & Hlogs).
    exists logs, []. rewrite app_nil_r. repeat split; auto.
Qed.

Variable rd : Reader.

Local Abbreviation pollInterval := (pollInterval rd).
Local Abbreviation fetch :=
  (fetch http_Get json_Unmarshal pem_Decode x509_ParseCertificate rd).
Local Abbreviation fetcher :=
  (fetcher http_Get json_Unmarshal pem_Decode x509_ParseCertificate rd).

(** The interval computation emits nothing and changes nothing. *)
Lemma pollInterval_eq (s : State) :
  pollInterval s =
    ([], s,
     match rand_Int rd (wrap64 (maxPoll s - minPoll s)) with
     | Ret (inl randomVal) => Ret (wrap64 (randomVal + minPoll s))
     | Ret (inr err) => Exit ("Unable to update poll interval: " +:+ err)
     | Exit msg => Exit msg
     | Panic msg => Panic msg
     end).
Proof.
  unfold s3config.pollInterval, mbind, mget, mlift. cbn.
  destruct (rand_Int rd (wrap64 (maxPoll s - minPoll s))) as [[v | err] | msg | msg];
    reflexivity.
Qed.

(** [fetch] is the first part, then the interval, then the sleep. *)
Lemma fetch_eq (s : State) :
  fetch s =
    let r := fetchConfig s in
    match ending r with
    | Ret _ =>
        match ending (pollInterval (final r)) with
        | Ret interval =>
            (events r ++ [EvSleep (minutes interval)], final r, Ret tt)
        | Exit msg => (events r, final r, Exit msg)
        | Panic msg => (events r, final r, Panic msg)
        end
    | Exit msg => (events r, final r, Exit msg)
    | Panic msg => (events r, final r, Panic msg)
    end.
Proof.
  unfold s3config.fetch, mbind at 1.
  destruct (fetchConfig s) as [[e1 s1] [[] | msg | msg]]; cbn; try reflexivity.
  unfold mbind. rewrite pollInterval_eq. cbn.
  destruct (rand_Int rd (wrap64 (maxPoll s1 - minPoll s1))) as [[v | err] | msg | msg];
    cbn; rewrite ?app_nil_r; reflexivity.
Qed.

Lemma fetch_final (s : State) : final (fetch s) = final (fetchConfig s).
Proof.
  rewrite fetch_eq. cbv zeta.
  destruct (ending (fetchConfig s)); try reflexivity.
  destruct (ending (pollInterval (final (fetchConfig s)))); reflexivity.
Qed.

(** The events of [fetch] are those of its first part, and a sleep at the
    end when it returns. *)
Lemma fetch_events (s : State) :
  (events (fetch s) = events (fetchConfig s) /\ ending (fetch s) <> Ret tt) \/
  (exists interval,
     events (fetch s) = events (fetchConfig s) ++ [EvSleep (minutes interval)] /\
     ending (fetchConfig s) = Ret tt /\
     ending (pollInterval (final (fetchConfig s))) = Ret interval /\
     ending (fetch s) = Ret tt).
Proof.
  rewrite fetch_eq. cbv zeta.
  destruct (ending (fetchConfig s)) as [[] | msg | msg] eqn:He;
    try (left; split; [reflexivity | discriminate]).
  destruct (ending (pollInterval (final (fetchConfig s)))) as [i | msg | msg] eqn:Hi;
    try (left; split; [reflexivity | discriminate]).
  right. exists i. auto.
Qed.

Lemma fetchConfig_final (s : State) :
  final (fetchConfig s) =
    match decoded s with
    | Some config => setPoll config s
    | None => s
    end.
Proof.
  destruct (decoded s) as [config |] eqn:Hd.
  - rewrite (fetchConfig_decoded _ _ Hd).
    pose proof (parseCerts_frame (Fallbacks config) (setPoll config s)) as [Hs _].
    destruct (parseCerts (Fallbacks config) (setPoll config s))
      as [[logs s'] [[[|] fbs'] | msg | msg]]; cbn in *; subst; reflexivity.
  - destruct (fetchConfig_undecoded _ Hd) as (logs & -> & _). reflexivity.
Qed.

End fetch_facts.

(** Events that are not sends leave the fallback list alone. *)
Lemma updateFallbacks_no_send (tr : list s3config.Event) (fallbacks : list proxy.Fallback) :
  forallb (fun e => negb (s3config.is_send e)) tr = true ->
  updateFallbacks tr fallbacks = Ret fallbacks.
Proof.
  induction tr as [| [url | msg | config | d] tr IH]; cbn; auto; discriminate.
Qed.

Lemma forallb_app_true {A} (f : A -> bool) (l1 l2 : list A) :
  forallb f l1 = true -> forallb f l2 = true -> forallb f (l1 ++ l2) = true.
Proof. intros H1 H2. rewrite forallb_app, H1, H2. reflexivity. Qed.

Lemma forallb_weaken {A} (f g : A -> bool) (l : list A) :
  (forall x, f x = true -> g x = true) ->
  forallb f l = true -> forallb g l = true.
Proof.
  intros Hfg. induction l as [| x l IH]; cbn; [reflexivity |].
  intros [Hx Hl]%andb_prop. rewrite (Hfg _ Hx), (IH Hl). reflexivity.
Qed.

Lemma sample_rd_ok : Reader_ok sample.rd.
Proof.
  split.
  - intros max v Hmax [= <-]. lia.
  - intros n bs [= <-]. apply repeat_length.
Qed.

(** ** Publication, poll bounds and the poll interval *)

Section fetch_claims.

Import s3config.

Variable http_Get : string -> Response + error.
Variable json_Unmarshal : string -> S3Config + error.
Variable pem_Decode : string -> option (list byte).
Variable x509_ParseCertificate : list byte -> Certificate + error.
Variable rd : Reader.

Local Abbreviation parseCert := (parseCert pem_Decode x509_ParseCertificate).
Local Abbreviation parseCerts := (parseCerts pem_Decode x509_ParseCertificate).
Local Abbreviation decoded := (decoded http_Get json_Unmarshal).
Local Abbreviation fetchConfig :=
  (fetchConfig http_Get json_Unmarshal pem_Decode x509_ParseCertificate).
Local Abbreviation pollInterval := (pollInterval rd).
Local Abbreviation fetch :=
  (fetch http_Get json_Unmarshal pem_Decode x509_ParseCertificate rd).
Local Abbreviation fetcher :=
  (fetcher http_Get json_Unmarshal pem_Decode x509_ParseCertificate rd).

(** A document with an unparsable certificate is not sent, whatever else
    happens in the iteration. *)
Lemma bad_certificate_not_sent (s : State) (config : S3Config)
    (bad : FallbackConfig) (err : error) :
  decoded s = Some config ->
  In (Some bad) (Fallbacks config) ->
  parseCert (Cert bad) = inr err ->
  forallb (fun e => negb (is_send e)) (events (fetch s)) = true.
Proof.
  intros Hd Hin Hbad.
  assert (Hcfg : forallb (fun e => negb (is_send e)) (events (fetchConfig s)) = true).
  { rewrite (fetchConfig_decoded _ _ _ _ _ _ Hd).
    pose proof (parseCerts_frame pem_Decode x509_ParseCertificate
                  (Fallbacks config) (setPoll config s)) as [_ Hlogs].
    pose proof (fun fbs' => parseCerts_bad pem_Decode x509_ParseCertificate
                  (Fallbacks config) fbs' (setPoll config s) bad err Hin Hbad) as Hne.
    assert (Hw : forall l, forallb is_log l = true ->
                           forallb (fun e => negb (is_send e)) l = true).
    { intros l. apply forallb_weaken. intros [| | |]; cbn; congruence. }
    destruct (parseCerts (Fallbacks config) (setPoll config s))
      as [[logs s'] [[[|] fbs'] | msg | msg]]; cbn in *; auto.
    exfalso. apply (Hne fbs'). reflexivity. }
  destruct (fetch_events http_Get json_Unmarshal pem_Decode x509_ParseCertificate rd s)
    as [[-> _] | (i & -> & _)]; [exact Hcfg |].
  apply forallb_app_true; [exact Hcfg | reflexivity].
Qed.

(** C2: a fetched document in which some FallbackSpec has a certificate
    that does not parse is never sent on [ConfigUpdate] (so
    [doUpdateFallbacks] is never run with it), and the fallback list of the
    proxy is what it was, also when other entries of the document are
    well-formed. *)
Theorem bad_certificate_discards_document (s : State) (config : S3Config)
    (bad : FallbackConfig) (err : error) (fallbacks : list proxy.Fallback) :
  decoded s = Some config ->
  In (Some bad) (Fallbacks config) ->
  parseCert (Cert bad) = inr err ->
  forallb (fun e => negb (is_send e)) (events (fetch s)) = true /\
  updateFallbacks (events (fetch s)) fallbacks = Ret fallbacks.
Proof.
  intros Hd Hin Hbad.
  pose proof (bad_certificate_not_sent _ _ _ _ Hd Hin Hbad) as Hns.
  split; [exact Hns |].
  apply updateFallbacks_no_send, Hns.
Qed.

(** C8, as the code has it: the remembered poll bounds are those of the
    document as soon as it is decoded (status 200 and [json.Unmarshal]
    without error), before and whatever the outcome of the certificate
    check; they are unchanged when no document is decoded. *)
Theorem poll_bounds_follow_decoded_document (s : State) :
  let s' := final (fetch s) in
  match decoded s with
  | Some config => minPoll s' = MinPoll config /\ maxPoll s' = MaxPoll config
  | None => minPoll s' = minPoll s /\ maxPoll s' = maxPoll s
  end.
Proof.
  cbv zeta. rewrite fetch_final, fetchConfig_final.
  destruct (decoded s) as [config |]; split; reflexivity.
Qed.

(** C4, what the code does: the goroutine started by [init] issues exactly
    one GET; if it gets as far as its sleep, the sleep is its last event and
    the goroutine has returned.  No second iteration begins. *)
Theorem fetcher_runs_one_iteration (s : State) :
  length (List.filter is_get (events (fetcher s))) = 1%nat /\
  exists pre,
    forallb (fun e => negb (is_sleep e)) pre = true /\
    (events (fetcher s) = pre \/
     exists d, events (fetcher s) = pre ++ [EvSleep d] /\ ending (fetcher s) = Ret tt).
Proof.
  unfold s3config.fetcher.
  destruct (fetchConfig_shape http_Get json_Unmarshal pem_Decode
              x509_ParseCertificate s) as (logs & sends & Hev & Hlogs & Hsends).
  assert (Hg : List.filter is_get (logs ++ sends) = []).
  { rewrite List.filter_app.
    assert (Hl : List.filter is_get logs = []).
    { clear -Hlogs. induction logs as [| [| | |] l IH]; cbn in *;
        try discriminate; auto. }
    rewrite Hl. destruct Hsends as [-> | (c & -> & _)]; reflexivity. }
  assert (Hs : forallb (fun e => negb (is_sleep e)) (events (fetchConfig s)) = true).
  { rewrite Hev. cbn. apply forallb_app_true.
    - revert Hlogs. apply forallb_weaken. intros [| | |]; cbn; congruence.
    - destruct Hsends as [-> | (c & -> & _)]; reflexivity. }
  destruct (fetch_events http_Get json_Unmarshal pem_Decode x509_ParseCertificate rd s)
    as [[Hf _] | (i & Hf & _ & _ & Hend)]; rewrite Hf.
  - split.
    + rewrite Hev. cbn. rewrite Hg. reflexivity.
    + exists (events (fetchConfig s)). auto.
  - split.
    + rewrite Hev. cbn. rewrite List.filter_app, Hg. reflexivity.
    + exists (events (fetchConfig s)). split; [exact Hs |].
      right. exists (minutes i). auto.
Qed.

Lemma wrap64_small (z : Z) : is_int64 z -> wrap64 z = z.
Proof.
  unfold is_int64, min_int64, max_int64, wrap64. intros Hz.
  rewrite Z.mod_small by lia. lia.
Qed.

(** Without a nil entry the certificate loop runs to its end or to its
    [break]. *)
Lemma parseCerts_total (fbs : list (option FallbackConfig)) (s : State) :
  Forall is_Some fbs -> exists r, ending (parseCerts fbs s) = Ret r.
Proof.
  induction 1 as [| o rest [f ->] _ IH]; cbn.
  - eauto.
  - destruct (parseCert (Cert f)) as [cert | err]; cbn; [| eauto].
    unfold mbind. destruct IH as [r Hr].
    destruct (parseCerts rest s) as [[ev s'] o]; cbn in *; subst. cbn. eauto.
Qed.

(** The interval of lines 104-110 when the difference of the bounds does
    not wrap around: the draw plus [minPoll]. *)
Lemma pollInterval_value (s : State) (randomVal : Z) :
  Reader_ok rd ->
  is_int64 (minPoll s) ->
  is_int64 (maxPoll s) ->
  minPoll s < maxPoll s ->
  maxPoll s - minPoll s <= max_int64 ->
  rd_Int rd (maxPoll s - minPoll s) = inl randomVal ->
  pollInterval s = ([], s, Ret (randomVal + minPoll s)) /\
  0 <= randomVal < maxPoll s - minPoll s.
Proof.
  intros [Hint _] Hmin Hmax Hlt Hfit Hdraw.
  assert (Hd : wrap64 (maxPoll s - minPoll s) = maxPoll s - minPoll s).
  { apply wrap64_small. unfold is_int64, min_int64, max_int64 in *. lia. }
  assert (Hv : 0 <= randomVal < maxPoll s - minPoll s).
  { apply Hint; [lia | exact Hdraw]. }
  split; [| exact Hv].
  rewrite pollInterval_eq, Hd. unfold rand_Int.
  destruct (Z.leb_spec (maxPoll s - minPoll s) 0) as [Hle | _]; [lia |].
  rewrite Hdraw, wrap64_small
    by (unfold is_int64, min_int64, max_int64 in *; lia).
  reflexivity.
Qed.


(** The same for the whole iteration: the sleep that ends it lasts
    [interval] minutes. *)
Lemma fetch_sleeps_within_bounds (s : State) (randomVal : Z) :
  let s1 := final (fetchConfig s) in
  Reader_ok rd ->
  ending (fetchConfig s) = Ret tt ->
  is_int64 (minPoll s1) ->
  is_int64 (maxPoll s1) ->
  minPoll s1 < maxPoll s1 ->
  maxPoll s1 - minPoll s1 <= max_int64 ->
  rd_Int rd (maxPoll s1 - minPoll s1) = inl randomVal ->
  exists interval,
    events (fetch s) = events (fetchConfig s) ++ [EvSleep (minutes interval)] /\
    minPoll s1 <= interval < maxPoll s1.
Proof.
  cbv zeta. intros Hrd Hend Hmin Hmax Hlt Hfit Hdraw.
  destruct (pollInterval_value (final (fetchConfig s)) randomVal
              Hrd Hmin Hmax Hlt Hfit Hdraw) as [Hi Hv].
  exists (randomVal + minPoll (final (fetchConfig s))). split; [| lia].
  rewrite fetch_eq. cbv zeta. rewrite Hend, Hi. reflexivity.
Qed.

(** C10, as the code has it: a decoded document with
    [minpoll >= maxpoll] whose difference [maxpoll - minpoll] fits in an
    int64 has its values stored as the remembered poll bounds, and the
    iteration ends in a panic without sleeping: the panic of [rand.Int],
    called with the non-positive bound [maxpoll - minpoll], unless a nil
    entry of the fallback list has made the certificate loop panic
    first. *)
Theorem unchecked_poll_bounds_panic (s : State) (config : S3Config) :
  decoded s = Some config ->
  MinPoll config >= MaxPoll config ->
  min_int64 <= MaxPoll config - MinPoll config ->
  minPoll (final (fetch s)) = MinPoll config /\
  maxPoll (final (fetch s)) = MaxPoll config /\
  (exists msg, ending (fetch s) = Panic msg) /\
  forallb (fun e => negb (is_sleep e)) (events (fetch s)) = true /\
  (Forall is_Some (Fallbacks config) ->
   ending (fetchConfig s) = Ret tt /\
   wrap64 (maxPoll (final (fetchConfig s)) - minPoll (final (fetchConfig s))) <= 0 /\
   ending (fetch s) = Panic "crypto/rand: argument to Int is <= 0").
Proof.
  intros Hd Hge Hfit.
  assert (Hfinal : final (fetchConfig s) = setPoll config s).
  { rewrite fetchConfig_final, Hd. reflexivity. }
  assert (Hb1 : minPoll (final (fetch s)) = MinPoll config).
  { rewrite fetch_final, Hfinal. reflexivity. }
  assert (Hb2 : maxPoll (final (fetch s)) = MaxPoll config).
  { rewrite fetch_final, Hfinal. reflexivity. }
  assert (Hw : wrap64 (MaxPoll config - MinPoll config) = MaxPoll config - MinPoll config).
  { apply wrap64_small. unfold is_int64, min_int64, max_int64 in *. lia. }
  assert (Hpanic : ending (pollInterval (final (fetchConfig s)))
                   = Panic "crypto/rand: argument to Int is <= 0").
  { rewrite pollInterval_eq, Hfinal. cbn. rewrite Hw. unfold rand_Int.
    destruct (Z.leb_spec (MaxPoll config - MinPoll config) 0); [reflexivity | lia]. }
  assert (Hsl : forallb (fun e => negb (is_sleep e)) (events (fetchConfig s)) = true).
  { destruct (fetchConfig_shape http_Get json_Unmarshal pem_Decode
                x509_ParseCertificate s) as (logs & sends & -> & Hlogs & Hsends).
    cbn. apply forallb_app_true.
    - revert Hlogs. apply forallb_weaken. intros [| | |]; cbn; congruence.
    - destruct Hsends as [-> | (c & -> & _)]; reflexivity. }
  assert (Hcases : ending (fetchConfig s) = Ret tt \/
                   exists msg, ending (fetchConfig s) = Panic msg).
  { rewrite (fetchConfig_decoded _ _ _ _ _ _ Hd).
    pose proof (parseCerts_no_exit pem_Decode x509_ParseCertificate
                  (Fallbacks config) (setPoll config s)) as Hne.
    destruct (parseCerts (Fallbacks config) (setPoll config s))
      as [[logs s'] [[[|] fbs'] | msg | msg]]; cbn in *; eauto.
    exfalso. apply (Hne msg). reflexivity. }
  assert (Hev : events (fetch s) = events (fetchConfig s) /\
                exists msg, ending (fetch s) = Panic msg).
  { rewrite fetch_eq. cbv zeta. rewrite Hpanic.
    destruct Hcases as [-> | [msg ->]]; cbn; eauto. }
  destruct Hev as [Hev Hend].
  split; [exact Hb1 |]. split; [exact Hb2 |]. split; [exact Hend |].
  split; [rewrite Hev; exact Hsl |].
  intros Hnonil.
  assert (Hret : ending (fetchConfig s) = Ret tt).
  { rewrite (fetchConfig_decoded _ _ _ _ _ _ Hd).
    destruct (parseCerts_total (Fallbacks config) (setPoll config s) Hnonil) as [r Hr].
    destruct (parseCerts (Fallbacks config) (setPoll config s))
      as [[logs s'] o]; cbn in Hr; subst o.
    destruct r as [[|] fbs']; reflexivity. }
  split; [exact Hret |]. split.
  - rewrite Hfinal. cbn. rewrite Hw. lia.
  - rewrite fetch_eq. cbv zeta. rewrite Hpanic, Hret. reflexivity.
Qed.

End fetch_claims.

(** ** The fallback registry *)

Section registry_facts.

Import proxy.

(** The update loop writes at indices [i] and above only, and keeps the
    length. *)
Lemma updateLoop_frame (configs : list (option s3config.FallbackConfig)) :
  forall (i : nat) (fallbacks new : list Fallback),
    updateLoop i configs fallbacks = Ret new ->
    length new = length fallbacks /\
    forall j, (j < i)%nat -> new !! j = fallbacks !! j.
Proof.
  induction configs as [| [f |] rest IH]; intros i fallbacks new; cbn.
  - intros [= <-]. auto.
  - destruct (s3config.X509Cert f) as [cert |]; cbn; [| discriminate].
    case_bool_decide as Hi; [| discriminate].
    intros Hloop. destruct (IH _ _ _ Hloop) as [Hlen Hlow].
    rewrite length_insert in Hlen. split; [exact Hlen |].
    intros j Hj. rewrite Hlow by lia.
    apply list_lookup_insert_ne. lia.
  - discriminate.
Qed.

(** What the loop stores for the entry it starts with. *)
Lemma updateLoop_head (f : s3config.FallbackConfig)
    (rest : list (option s3config.FallbackConfig)) (i : nat)
    (fallbacks new : list Fallback) :
  updateLoop i (Some f :: rest) fallbacks = Ret new ->
  exists cert,
    s3config.X509Cert f = Some cert /\
    new !! i = Some {| FallbackConfig := f;
                       tlsConfig := Some {| RootCAs := [cert];
                                            InsecureSkipVerify := true |} |}.
Proof.
  cbn. destruct (s3config.X509Cert f) as [cert |]; cbn; [| discriminate].
  case_bool_decide as Hi; [| discriminate].
  intros Hloop. exists cert. split; [reflexivity |].
  destruct (updateLoop_frame _ _ _ _ Hloop) as [_ Hlow].
  rewrite Hlow by lia.
  apply list_lookup_insert_eq. exact Hi.
Qed.

(** The loop runs to its end on entries that are non-nil and carry a
    parsed certificate. *)
Lemma updateLoop_total (configs : list (option s3config.FallbackConfig)) :
  Forall (fun o => exists f cert, o = Some f /\ s3config.X509Cert f = Some cert) configs ->
  forall (i : nat) (fallbacks : list Fallback),
    (i + length configs <= length fallbacks)%nat ->
    exists new, updateLoop i configs fallbacks = Ret new.
Proof.
  induction 1 as [| o rest (f & cert & -> & Hcert) _ IH]; intros i fallbacks Hlen; cbn.
  - eauto.
  - rewrite Hcert. cbn. cbn in Hlen.
    rewrite bool_decide_eq_true_2 by lia.
    apply IH. rewrite length_insert. lia.
Qed.

Lemma getFallback_first (fallbacks : list Fallback) (fb : Fallback) :
  fallbacks !! 0%nat = Some fb -> getFallback fallbacks = Ret fb.
Proof.
  unfold getFallback. destruct fallbacks as [| x l]; cbn; [discriminate |].
  intros [= ->]. reflexivity.
Qed.

(** C1: once a RemoteConfig with at least one fallback has been applied,
    select returns the fallback built from the first entry of the document
    (index 0), with its host, port and authToken, however many entries the
    document lists. *)
Theorem select_after_apply_returns_first
    (config : s3config.S3Config) (old new : list Fallback) :
  doUpdateFallbacks config old = Ret new ->
  s3config.Fallbacks config <> [] ->
  exists (first : s3config.FallbackConfig) (fb : Fallback),
    s3config.Fallbacks config !! 0%nat = Some (Some first) /\
    getFallback new = Ret fb /\
    FallbackConfig fb = first /\
    s3config.Ip (FallbackConfig fb) = s3config.Ip first /\
    s3config.Port (FallbackConfig fb) = s3config.Port first /\
    s3config.AuthToken (FallbackConfig fb) = s3config.AuthToken first.
Proof.
  unfold doUpdateFallbacks. intros Happly Hne.
  destruct (s3config.Fallbacks config) as [| [first |] rest] eqn:Hfbs;
    [congruence | | discriminate].
  destruct (updateLoop_head _ _ _ _ _ Happly) as (cert & Hcert & Hnew).
  eexists first, _. split; [reflexivity |].
  split; [apply getFallback_first, Hnew |].
  repeat split.
Qed.

(** C9: select on an empty fallback set, be it the set before any apply
    or the set after an apply with an empty fallback list, ends the
    process through [log.Fatalf] with the message [No fallback configured!];
    select never panics on an index out of range. *)
Theorem select_on_empty_set_is_fatal
    (config : s3config.S3Config) (old : list Fallback) :
  s3config.Fallbacks config = [] ->
  getFallback no_fallbacks = Exit "No fallback configured!" /\
  (exists new, doUpdateFallbacks config old = Ret new /\
               getFallback new = Exit "No fallback configured!") /\
  (forall fallbacks msg, getFallback fallbacks <> Panic msg).
Proof.
  intros Hempty. split; [reflexivity |]. split.
  - exists []. unfold doUpdateFallbacks. rewrite Hempty. split; reflexivity.
  - intros [| fb l] msg; discriminate.
Qed.

End registry_facts.

(** Every document the fetcher sends is applied without a panic. *)
Lemma sent_documents_apply
    (http_Get : string -> s3config.Response + error)
    (json_Unmarshal : string -> s3config.S3Config + error)
    (pem_Decode : string -> option (list byte))
    (x509_ParseCertificate : list byte -> Certificate + error)
    (s : s3config.State) (config : s3config.S3Config) (old : list proxy.Fallback) :
  In (s3config.EvSend config)
     (events (s3config.fetchConfig http_Get json_Unmarshal pem_Decode
                x509_ParseCertificate s)) ->
  exists new, proxy.doUpdateFallbacks config old = Ret new /\
              length new = length (s3config.Fallbacks config).
Proof.
  intros Hin.
  assert (Hok : Forall (fun o => exists f cert,
                          o = Some f /\ s3config.X509Cert f = Some cert)
                       (s3config.Fallbacks config)).
  { destruct (s3config.decoded http_Get json_Unmarshal s) as [doc |] eqn:Hd.
    - rewrite (fetchConfig_decoded _ _ _ _ _ _ Hd) in Hin.
      pose proof (parseCerts_frame pem_Decode x509_ParseCertificate
                    (s3config.Fallbacks doc) (s3config.setPoll doc s)) as [_ Hlogs].
      pose proof (parseCerts_ok pem_Decode x509_ParseCertificate
                    (s3config.Fallbacks doc)) as Hpok.
      assert (Hnl : forall l, forallb s3config.is_log l = true ->
                              ~ In (s3config.EvSend config) l).
      { intros l Hl Hi. rewrite forallb_forall in Hl. specialize (Hl _ Hi).
        discriminate. }
      destruct (s3config.parseCerts pem_Decode x509_ParseCertificate
                  (s3config.Fallbacks doc) (s3config.setPoll doc s))
        as [[logs s'] [[[|] fbs'] | msg | msg]] eqn:Hpc; cbn in *;
        try solve [destruct Hin as [Hin | Hin];
                   [discriminate | exfalso; eapply Hnl; eassumption]].
      destruct Hin as [Hin | Hin]; [discriminate |].
      apply in_app_or in Hin. destruct Hin as [Hin | [Hin | []]];
        [exfalso; eapply Hnl; eassumption |].
      injection Hin as <-. cbn.
      specialize (Hpok fbs' (s3config.setPoll doc s)). rewrite Hpc in Hpok.
      specialize (Hpok eq_refl).
      clear -Hpok. induction Hpok as [| o o' l l' (f & cert & -> & _ & ->) _ IH];
        constructor; [| exact IH].
      exists (s3config.setX509Cert cert f), cert. split; reflexivity.
    - destruct (fetchConfig_undecoded _ _ pem_Decode x509_ParseCertificate _ Hd)
        as (logs & Heq & Hlogs).
      rewrite Heq in Hin. cbn in Hin. destruct Hin as [Hin | Hin]; [discriminate |].
      rewrite forallb_forall in Hlogs. specialize (Hlogs _ Hin). discriminate. }
  unfold proxy.doUpdateFallbacks.
  destruct (updateLoop_total _ Hok 0%nat
              (replicate (length (s3config.Fallbacks config)) proxy.zeroFallback))
    as [new Hnew].
  { rewrite length_replicate. lia. }
  exists new. split; [exact Hnew |].
  destruct (updateLoop_frame _ _ _ _ Hnew) as [Hlen _].
  rewrite Hlen. apply length_replicate.
Qed.

(** ** The relay *)

Section session_facts.

Import proxy.

Variable net : Net.
Variable rd : Reader.

Lemma canonical_auth_token :
  http.CanonicalMIMEHeaderKey x_lantern_auth_token = "X-Lantern-Auth-Token".
Proof. reflexivity. Qed.

Lemma canonical_random_length :
  http.CanonicalMIMEHeaderKey x_random_length_header = "X_lantern-Random-Length-Header".
Proof. reflexivity. Qed.

(** X21: when the dial, the hijack and the padding token succeed,
    [handleLocalRequest] writes one request to the upstream, the original
    with the two headers set, starts the copying, and writes nothing to the
    client through the response it has hijacked. *)
Lemma handleLocalRequest_forward (fallbacks : list Fallback)
    (resp : http.ResponseWriter) (req : http.Request) (fb : Fallback) (str : string) :
  getFallback fallbacks = Ret fb ->
  tls_Dial net "tcp" (s3config.Ip (FallbackConfig fb) +:+ ":" +:+
                      s3config.Port (FallbackConfig fb)) (tlsConfig fb) = None ->
  http.hijacked resp = false ->
  hijack_answer net = None ->
  randomLengthString rd = Ret (inl str) ->
  handleLocalRequest net rd fallbacks resp req =
    Ret {| resp := {| http.hijacked := true; http.status := http.status resp;
                      http.written := http.written resp |};
           connOut :=
             Some {| remoteAddr := s3config.Ip (FallbackConfig fb) +:+ ":" +:+
                                   s3config.Port (FallbackConfig fb);
                     connConfig := tlsConfig fb;
                     sent := [http.setHeader x_lantern_auth_token
                                (s3config.AuthToken (FallbackConfig fb))
                                (http.setHeader x_random_length_header str req)] |};
           piping := true;
           logged := [] |}.
Proof.
  intros Hfb Hdial Hfresh Hhij Hstr.
  unfold handleLocalRequest. rewrite Hfb. cbn [obind]. rewrite Hdial.
  unfold http.Hijack. rewrite Hfresh, Hhij, Hstr. reflexivity.
Qed.

(** Whenever something was written to the upstream, that path was
    taken. *)
Lemma handleLocalRequest_sent (fallbacks : list Fallback)
    (resp : http.ResponseWriter) (req : http.Request)
    (s : Session) (conn : Conn) :
  handleLocalRequest net rd fallbacks resp req = Ret s ->
  connOut s = Some conn ->
  sent conn <> [] ->
  exists fb str,
    getFallback fallbacks = Ret fb /\
    randomLengthString rd = Ret (inl str) /\
    piping s = true /\
    conn = {| remoteAddr := s3config.Ip (FallbackConfig fb) +:+ ":" +:+
                            s3config.Port (FallbackConfig fb);
              connConfig := tlsConfig fb;
              sent := [http.setHeader x_lantern_auth_token
                         (s3config.AuthToken (FallbackConfig fb))
                         (http.setHeader x_random_length_header str req)] |}.
Proof.
  unfold handleLocalRequest.
  destruct (getFallback fallbacks) as [fb | msg | msg]; cbn [obind]; try discriminate.
  destruct (tls_Dial net "tcp" _ (tlsConfig fb)) as [err |].
  { intros [= <-]. cbn. discriminate. }
  destruct (http.Hijack (hijack_answer net) resp) as [resp1 [err |]].
  { intros [= <-]. cbn. intros [= <-]. cbn. congruence. }
  destruct (randomLengthString rd) as [[str | err] | msg | msg]; cbn [obind];
    try discriminate.
  - intros [= <-]. cbn. intros [= <-] _. exists fb, str. auto.
  - intros [= <-]. cbn. intros [= <-]. cbn. congruence.
Qed.

(** C5: every client request forwarded upstream is the original request
    with two headers set, [X-LANTERN-AUTH-TOKEN] (canonical form
    [X-Lantern-Auth-Token]) to the authToken of the selected fallback and
    the random-length header to the generated token; every other header,
    the method, the URI and the body are those of the original request. *)
Theorem forwarded_request_has_two_injected_headers
    (fallbacks : list Fallback) (resp : http.ResponseWriter)
    (req req' : http.Request) (s : Session) (conn : Conn) :
  handleLocalRequest net rd fallbacks resp req = Ret s ->
  connOut s = Some conn ->
  In req' (sent conn) ->
  exists (fb : Fallback) (str : string),
    getFallback fallbacks = Ret fb /\
    randomLengthString rd = Ret (inl str) /\
    sent conn = [req'] /\
    http.Method req' = http.Method req /\
    http.URL req' = http.URL req /\
    http.Body req' = http.Body req /\
    http.Header req' !! "X-Lantern-Auth-Token"
      = Some [s3config.AuthToken (FallbackConfig fb)] /\
    http.Header req' !! "X_lantern-Random-Length-Header" = Some [str] /\
    forall k : string,
      k <> "X-Lantern-Auth-Token" ->
      k <> "X_lantern-Random-Length-Header" ->
      http.Header req' !! k = http.Header req !! k.
Proof.
  intros Hrun Hconn Hin.
  destruct (handleLocalRequest_sent _ _ _ _ _ Hrun Hconn) as (fb & str & Hfb & Hstr & _ & ->).
  { intros Hnil. rewrite Hnil in Hin. destruct Hin. }
  cbn in Hin. destruct Hin as [<- | []].
  exists fb, str. cbn.
  unfold http.Header_Set. rewrite canonical_auth_token, canonical_random_length.
  repeat split; try assumption.
  - apply lookup_insert_eq.
  - rewrite lookup_insert_ne by discriminate. apply lookup_insert_eq.
  - intros k Hk1 Hk2. rewrite !lookup_insert_ne by congruence. reflexivity.
Qed.

(** What the client gets from [respondBadGateway] on a fresh response. *)
Lemma respondBadGateway_fresh (req : http.Request) (msg : string)
    (c : option Conn) :
  let s := respondBadGateway req msg
             {| resp := http.newResponse; connOut := c; piping := false; logged := [] |} in
  answered_bad_gateway s (http.URL req) msg /\
  connOut s = c /\ piping s = false /\ logged s = [msg].
Proof. cbv zeta. unfold answered_bad_gateway. cbn. repeat split. Qed.

(** C3, as the code has it: a session that fails at the TLS dial answers
    with status 502 and the body
    [Bad Gateway: <URL> - Unable to open socket to upstream proxy: <error>],
    through a response that is not hijacked; it holds no upstream connection
    and forwards nothing. *)
Theorem dial_failure_gives_bad_gateway
    (fallbacks : list Fallback) (req : http.Request)
    (fb : Fallback) (err : error) :
  getFallback fallbacks = Ret fb ->
  tls_Dial net "tcp" (s3config.Ip (FallbackConfig fb) +:+ ":" +:+
                      s3config.Port (FallbackConfig fb)) (tlsConfig fb) = Some err ->
  exists s : Session,
    handleLocalRequest net rd fallbacks http.newResponse req = Ret s /\
    answered_bad_gateway s (http.URL req)
      ("Unable to open socket to upstream proxy: " +:+ err) /\
    connOut s = None /\
    nothing_sent_upstream s /\
    logged s = ["Unable to open socket to upstream proxy: " +:+ err].
Proof.
  intros Hfb Hdial.
  unfold handleLocalRequest. rewrite Hfb. cbn [obind]. rewrite Hdial.
  eexists. split; [reflexivity |].
  unfold answered_bad_gateway, nothing_sent_upstream. cbn. repeat split.
Qed.

(** A failure of the hijack comes after the server has marked the
    connection hijacked: the writes of [respondBadGateway] reach nobody,
    the upstream connection is there and nothing is written to it. *)
Lemma hijack_failure_is_silent
    (fallbacks : list Fallback) (req : http.Request) (fb : Fallback) (err : error) :
  getFallback fallbacks = Ret fb ->
  tls_Dial net "tcp" (s3config.Ip (FallbackConfig fb) +:+ ":" +:+
                      s3config.Port (FallbackConfig fb)) (tlsConfig fb) = None ->
  hijack_answer net = Some err ->
  exists (s : Session) (conn : Conn),
    handleLocalRequest net rd fallbacks http.newResponse req = Ret s /\
    http.hijacked (resp s) = true /\
    http.status (resp s) = None /\
    http.written (resp s) = [] /\
    connOut s = Some conn /\
    sent conn = [] /\
    piping s = false /\
    logged s = ["Unable to access underlying connection from client: " +:+ err].
Proof.
  intros Hfb Hdial Hhij.
  unfold handleLocalRequest. rewrite Hfb. cbn [obind]. rewrite Hdial.
  unfold http.Hijack. cbn [http.hijacked http.newResponse]. rewrite Hhij.
  eexists _, _. split; [reflexivity |]. cbn. repeat split.
Qed.

(** X20: a failure of the padding token comes after the hijack: the
    writes of [respondBadGateway] go to a hijacked response and reach
    nobody, and nothing is written upstream. *)
Lemma padding_failure_is_silent
    (fallbacks : list Fallback) (req : http.Request) (fb : Fallback) (err : error) :
  getFallback fallbacks = Ret fb ->
  tls_Dial net "tcp" (s3config.Ip (FallbackConfig fb) +:+ ":" +:+
                      s3config.Port (FallbackConfig fb)) (tlsConfig fb) = None ->
  hijack_answer net = None ->
  randomLengthString rd = Ret (inr err) ->
  exists s : Session,
    handleLocalRequest net rd fallbacks http.newResponse req = Ret s /\
    http.hijacked (resp s) = true /\
    http.status (resp s) = None /\
    http.written (resp s) = [] /\
    nothing_sent_upstream s.
Proof.
  intros Hfb Hdial Hhij Hstr.
  unfold handleLocalRequest. rewrite Hfb. cbn [obind]. rewrite Hdial.
  unfold http.Hijack. cbn [http.hijacked http.newResponse]. rewrite Hhij, Hstr.
  eexists. split; [reflexivity |].
  unfold nothing_sent_upstream. cbn. repeat split.
Qed.

(** The padding token never makes the process abort when the entropy
    source keeps its contract. *)
Lemma randomLengthString_returns :
  Reader_ok rd -> exists r, randomLengthString rd = Ret r.
Proof.
  intros [Hint _]. unfold randomLengthString, rand_Int. cbn.
  destruct (rd_Int rd 100) as [bLength | err] eqn:Hdraw; [| eauto].
  assert (0 <= bLength < 100) by (apply Hint; [lia | exact Hdraw]).
  destruct (Z.ltb_spec bLength 0); [lia |].
  destruct (rand_Read rd (Z.to_nat bLength)); eauto.
Qed.

(** C6: for every padding token that was generated, the length drawn is
    in [[0, 100)], base64 decoding of the token succeeds, and it gives back
    the random bytes, as many as the length drawn. *)
Theorem padding_token_roundtrip (str : string) :
  Reader_ok rd ->
  randomLengthString rd = Ret (inl str) ->
  exists (bLength : Z) (b : list byte),
    rd_Int rd 100 = inl bLength /\
    0 <= bLength < 100 /\
    rand_Read rd (Z.to_nat bLength) = inl b /\
    str = base64.EncodeToString b /\
    base64.DecodeString str = inl b /\
    Z.of_nat (length b) = bLength.
Proof.
  intros [Hint Hread]. unfold randomLengthString, rand_Int. cbn.
  destruct (rd_Int rd 100) as [bLength | err] eqn:Hdraw; [| discriminate].
  assert (Hrange : 0 <= bLength < 100) by (apply Hint; [lia | exact Hdraw]).
  destruct (Z.ltb_spec bLength 0); [lia |].
  destruct (rand_Read rd (Z.to_nat bLength)) as [b | err] eqn:Hb; [| discriminate].
  intros [= <-]. exists bLength, b.
  split; [reflexivity |]. split; [exact Hrange |]. split; [exact Hb |].
  split; [reflexivity |]. split.
  - apply DecodeString_EncodeToString.
  - unfold rand_Read in Hb. rewrite (Hread _ _ Hb). lia.
Qed.

End session_facts.

(** ** The sample inputs *)

Lemma sample_good_is_sent :
  events (sample.fetch "good" sample.s0) =
    [s3config.EvGet (s3config.s3url sample.s0);
     s3config.EvSend sample.doc_good_sent;
     s3config.EvSleep (minutes 14)] /\
  updateFallbacks (events (sample.fetch "good" sample.s0)) proxy.no_fallbacks
    = Ret sample.fallbacks.
Proof. split; reflexivity. Qed.

Lemma select_after_apply_returns_first_witness :
  exists (first : s3config.FallbackConfig) (fb : proxy.Fallback),
    s3config.Fallbacks sample.doc_good_sent !! 0%nat = Some (Some first) /\
    proxy.getFallback sample.fallbacks = Ret fb /\
    proxy.FallbackConfig fb = first /\
    s3config.Ip (proxy.FallbackConfig fb) = s3config.Ip first /\
    s3config.Port (proxy.FallbackConfig fb) = s3config.Port first /\
    s3config.AuthToken (proxy.FallbackConfig fb) = s3config.AuthToken first.
Proof.
  apply (select_after_apply_returns_first sample.doc_good_sent proxy.no_fallbacks
           sample.fallbacks).
  - reflexivity.
  - discriminate.
Defined.

Lemma bad_certificate_discards_document_witness :
  forallb (fun e => negb (s3config.is_send e))
    (events (sample.fetch "bad-cert" sample.s0)) = true /\
  updateFallbacks (events (sample.fetch "bad-cert" sample.s0)) sample.fallbacks
    = Ret sample.fallbacks.
Proof.
  apply (bad_certificate_discards_document (sample.http_Get "bad-cert")
           sample.json_Unmarshal sample.pem_Decode sample.x509_ParseCertificate
           sample.rd sample.s0 sample.doc_bad_cert
           (sample.fallback "10.0.0.2" "beta" "not a certificate")
           "No PEM encoded certificate found" sample.fallbacks).
  - reflexivity.
  - right. left. reflexivity.
  - reflexivity.
Defined.

Lemma selection_failure_gets_no_bad_gateway :
  proxy.handleLocalRequest sample.net_ok sample.rd proxy.no_fallbacks
    http.newResponse sample.request = Exit "No fallback configured!" /\
  ~ exists (s : proxy.Session) (reason : string),
      proxy.handleLocalRequest sample.net_ok sample.rd proxy.no_fallbacks
        http.newResponse sample.request = Ret s /\
      proxy.answered_bad_gateway s (http.URL sample.request) reason.
Proof.
  split; [reflexivity |].
  intros (s & reason & Hrun & _). discriminate Hrun.
Qed.

Lemma dial_failure_gives_bad_gateway_witness :
  exists s : proxy.Session,
    proxy.handleLocalRequest sample.net_refused sample.rd sample.fallbacks
      http.newResponse sample.request = Ret s /\
    proxy.answered_bad_gateway s (http.URL sample.request)
      ("Unable to open socket to upstream proxy: " +:+ "connection refused") /\
    proxy.connOut s = None /\
    proxy.nothing_sent_upstream s /\
    proxy.logged s
      = ["Unable to open socket to upstream proxy: " +:+ "connection refused"].
Proof.
  apply (dial_failure_gives_bad_gateway sample.net_refused sample.rd
           sample.fallbacks sample.request
           (sample.trusted (sample.fallback "10.0.0.1" "alpha" sample.pem_text))
           "connection refused").
  - reflexivity.
  - reflexivity.
Defined.

Lemma hijack_failure_is_silent_sample :
  exists s : proxy.Session,
    proxy.handleLocalRequest sample.net_no_hijack sample.rd sample.fallbacks
      http.newResponse sample.request = Ret s /\
    http.hijacked (proxy.resp s) = true /\
    http.status (proxy.resp s) = None /\
    http.written (proxy.resp s) = [] /\
    proxy.nothing_sent_upstream s /\
    proxy.logged s
      = ["Unable to access underlying connection from client: connection closed"].
Proof.
  eexists. split; [reflexivity |].
  unfold proxy.nothing_sent_upstream. cbn. repeat split.
Qed.

Lemma padding_failure_is_silent_sample :
  exists s : proxy.Session,
    proxy.handleLocalRequest sample.net_ok sample.rd_broken sample.fallbacks
      http.newResponse sample.request = Ret s /\
    http.hijacked (proxy.resp s) = true /\
    http.status (proxy.resp s) = None /\
    http.written (proxy.resp s) = [] /\
    proxy.logged s = ["Unable to generate random length header: unexpected EOF"].
Proof. eexists. split; [reflexivity |]. cbn. repeat split. Qed.

Lemma forwarded_request_has_two_injected_headers_witness :
  exists (fb : proxy.Fallback) (str : string),
    proxy.getFallback sample.fallbacks = Ret fb /\
    proxy.randomLengthString sample.rd = Ret (inl str) /\
    [http.setHeader proxy.x_lantern_auth_token "alpha"
       (http.setHeader proxy.x_random_length_header
          (base64.EncodeToString (repeat x2a 99)) sample.request)]
    = [http.setHeader proxy.x_lantern_auth_token "alpha"
         (http.setHeader proxy.x_random_length_header
            (base64.EncodeToString (repeat x2a 99)) sample.request)] /\
    http.Method
      (http.setHeader proxy.x_lantern_auth_token "alpha"
         (http.setHeader proxy.x_random_length_header
            (base64.EncodeToString (repeat x2a 99)) sample.request))
    = http.Method sample.request /\
    http.URL
      (http.setHeader proxy.x_lantern_auth_token "alpha"
         (http.setHeader proxy.x_random_length_header
            (base64.EncodeToString (repeat x2a 99)) sample.request))
    = http.URL sample.request /\
    http.Body
      (http.setHeader proxy.x_lantern_auth_token "alpha"
         (http.setHeader proxy.x_random_length_header
            (base64.EncodeToString (repeat x2a 99)) sample.request))
    = http.Body sample.request /\
    http.Header
      (http.setHeader proxy.x_lantern_auth_token "alpha"
         (http.setHeader proxy.x_random_length_header
            (base64.EncodeToString (repeat x2a 99)) sample.request))
      !! "X-Lantern-Auth-Token"
    = Some [s3config.AuthToken (proxy.FallbackConfig fb)] /\
    http.Header
      (http.setHeader proxy.x_lantern_auth_token "alpha"
         (http.setHeader proxy.x_random_length_header
            (base64.EncodeToString (repeat x2a 99)) sample.request))
      !! "X_lantern-Random-Length-Header"
    = Some [str] /\
    forall k : string,
      k <> "X-Lantern-Auth-Token" ->
      k <> "X_lantern-Random-Length-Header" ->
      http.Header
        (http.setHeader proxy.x_lantern_auth_token "alpha"
           (http.setHeader proxy.x_random_length_header
              (base64.EncodeToString (repeat x2a 99)) sample.request))
        !! k
      = http.Header sample.request !! k.
Proof.
  apply (forwarded_request_has_two_injected_headers sample.net_ok sample.rd
           sample.fallbacks http.newResponse sample.request
           (http.setHeader proxy.x_lantern_auth_token "alpha"
              (http.setHeader proxy.x_random_length_header
                 (base64.EncodeToString (repeat x2a 99)) sample.request))
           {| proxy.resp := {| http.hijacked := true; http.status := None;
                               http.written := [] |};
              proxy.connOut :=
                Some {| proxy.remoteAddr := "10.0.0.1:443";
                        proxy.connConfig :=
                          Some {| proxy.RootCAs := [{| Raw := sample.der |}];
                                  proxy.InsecureSkipVerify := true |};
                        proxy.sent :=
                          [http.setHeader proxy.x_lantern_auth_token "alpha"
                             (http.setHeader proxy.x_random_length_header
                                (base64.EncodeToString (repeat x2a 99))
                                sample.request)] |};
              proxy.piping := true;
              proxy.logged := [] |}
           {| proxy.remoteAddr := "10.0.0.1:443";
              proxy.connConfig :=
                Some {| proxy.RootCAs := [{| Raw := sample.der |}];
                        proxy.InsecureSkipVerify := true |};
              proxy.sent :=
                [http.setHeader proxy.x_lantern_auth_token "alpha"
                   (http.setHeader proxy.x_random_length_header
                      (base64.EncodeToString (repeat x2a 99))
                      sample.request)] |}).
  - reflexivity.
  - reflexivity.
  - left. reflexivity.
Defined.

Example sample_padding_token :
  proxy.randomLengthString sample.rd
  = Ret (inl "KioqKioqKioqKioqKioqKioqKioqKioqKioqKioqKioqKioqKioqKioqKioqKioqKioqKioqKioqKioqKioqKioqKioqKioqKioqKioqKioqKioqKioqKioqKioqKioqKioq").
Proof. reflexivity. Qed.

Lemma padding_token_roundtrip_witness :
  exists (bLength : Z) (b : list byte),
    rd_Int sample.rd 100 = inl bLength /\
    0 <= bLength < 100 /\
    rand_Read sample.rd (Z.to_nat bLength) = inl b /\
    base64.EncodeToString (repeat x2a 99) = base64.EncodeToString b /\
    base64.DecodeString (base64.EncodeToString (repeat x2a 99)) = inl b /\
    Z.of_nat (length b) = bLength.
Proof.
  apply (padding_token_roundtrip sample.rd (base64.EncodeToString (repeat x2a 99))).
  - split.
    + intros max v Hmax [= <-]. lia.
    + intros n bs [= <-]. apply repeat_length.
  - reflexivity.
Defined.



Lemma bad_certificate_still_updates_bounds :
  s3config.decoded (sample.http_Get "bad-cert") sample.json_Unmarshal sample.s0
    = Some sample.doc_bad_cert /\
  s3config.parseCert sample.pem_Decode sample.x509_ParseCertificate
    "not a certificate" = inr "No PEM encoded certificate found" /\
  forallb (fun e => negb (s3config.is_send e))
    (events (sample.fetch "bad-cert" sample.s0)) = true /\
  s3config.minPoll sample.s0 = 5 /\
  s3config.maxPoll sample.s0 = 15 /\
  s3config.minPoll (final (sample.fetch "bad-cert" sample.s0)) = 1 /\
  s3config.maxPoll (final (sample.fetch "bad-cert" sample.s0)) = 2 /\
  ~ (s3config.minPoll (final (sample.fetch "bad-cert" sample.s0))
       = s3config.minPoll sample.s0 /\
     s3config.maxPoll (final (sample.fetch "bad-cert" sample.s0))
       = s3config.maxPoll sample.s0).
Proof.
  repeat split; try reflexivity.
  intros [H _]. discriminate H.
Qed.

Lemma select_on_empty_set_is_fatal_witness :
  proxy.getFallback proxy.no_fallbacks = Exit "No fallback configured!" /\
  (exists new, proxy.doUpdateFallbacks sample.doc_empty sample.fallbacks = Ret new /\
               proxy.getFallback new = Exit "No fallback configured!") /\
  (forall fallbacks msg, proxy.getFallback fallbacks <> Panic msg).
Proof.
  apply (select_on_empty_set_is_fatal sample.doc_empty sample.fallbacks).
  reflexivity.
Defined.

Lemma inverted_wide_bounds_do_not_panic :
  s3config.decoded (sample.http_Get "inverted-wide") sample.json_Unmarshal sample.s0
    = Some sample.doc_inverted_wide /\
  s3config.MinPoll sample.doc_inverted_wide >= s3config.MaxPoll sample.doc_inverted_wide /\
  s3config.minPoll (final (sample.fetch "inverted-wide" sample.s0)) = max_int64 /\
  s3config.maxPoll (final (sample.fetch "inverted-wide" sample.s0)) = min_int64 /\
  wrap64 (min_int64 - max_int64) = 1 /\
  events (sample.fetch "inverted-wide" sample.s0) =
    [s3config.EvGet (s3config.s3url sample.s0);
     s3config.EvSend sample.doc_inverted_wide;
     s3config.EvSleep (minutes max_int64)] /\
  ending (sample.fetch "inverted-wide" sample.s0) = Ret tt /\
  ~ exists msg, ending (sample.fetch "inverted-wide" sample.s0) = Panic msg.
Proof.
  repeat split; try reflexivity.
  - discriminate.
  - intros [msg H]. discriminate H.
Qed.

Lemma unchecked_poll_bounds_panic_witness :
  s3config.minPoll (final (sample.fetch "inverted" sample.s0)) = 15 /\
  s3config.maxPoll (final (sample.fetch "inverted" sample.s0)) = 5 /\
  (exists msg, ending (sample.fetch "inverted" sample.s0) = Panic msg) /\
  forallb (fun e => negb (s3config.is_sleep e))
    (events (sample.fetch "inverted" sample.s0)) = true /\
  (Forall is_Some (s3config.Fallbacks sample.doc_inverted) ->
   ending (s3config.fetchConfig (sample.http_Get "inverted") sample.json_Unmarshal
             sample.pem_Decode sample.x509_ParseCertificate sample.s0) = Ret tt /\
   wrap64 (s3config.maxPoll
             (final (s3config.fetchConfig (sample.http_Get "inverted")
                       sample.json_Unmarshal sample.pem_Decode
                       sample.x509_ParseCertificate sample.s0)) -
           s3config.minPoll
             (final (s3config.fetchConfig (sample.http_Get "inverted")
                       sample.json_Unmarshal sample.pem_Decode
                       sample.x509_ParseCertificate sample.s0))) <= 0 /\
   ending (sample.fetch "inverted" sample.s0)
     = Panic "crypto/rand: argument to Int is <= 0").
Proof.
  apply (unchecked_poll_bounds_panic (sample.http_Get "inverted")
           sample.json_Unmarshal sample.pem_Decode sample.x509_ParseCertificate
           sample.rd sample.s0 sample.doc_inverted).
  - reflexivity.
  - cbn. lia.
  - unfold min_int64. cbn. lia.
Defined.

(** The goroutine on a good document: one GET, one send, one sleep, and
    it has returned. *)
Example fetcher_on_good_document :
  s3config.fetcher (sample.http_Get "good") sample.json_Unmarshal sample.pem_Decode
    sample.x509_ParseCertificate sample.rd sample.s0
  = ([s3config.EvGet (s3config.s3url sample.s0);
      s3config.EvSend sample.doc_good_sent;
      s3config.EvSleep (minutes 14)],
     sample.s0, Ret tt).
Proof. reflexivity. Qed.

Example init_reads_url_file :
  s3config.init (inl "abc") = Ret sample.s0 /\
  s3config.s3url sample.s0
    = "https://s3-ap-southeast-1.amazonaws.com/lantern-config/abc/config.json" /\
  exists msg, s3config.init (inr "no such file") = Exit msg.
Proof. repeat split. eexists. reflexivity. Qed.

(** * Further properties of the fetcher *)

Section fetch_more.

Import s3config.

Variable http_Get : string -> Response + error.
Variable json_Unmarshal : string -> S3Config + error.
Variable pem_Decode : string -> option (list byte).
Variable x509_ParseCertificate : list byte -> Certificate + error.
Variable rd : Reader.

Local Abbreviation parseCert := (parseCert pem_Decode x509_ParseCertificate).
Local Abbreviation parseCerts := (parseCerts pem_Decode x509_ParseCertificate).
Local Abbreviation decoded := (decoded http_Get json_Unmarshal).
Local Abbreviation fetchConfig :=
  (fetchConfig http_Get json_Unmarshal pem_Decode x509_ParseCertificate).
Local Abbreviation pollInterval := (pollInterval rd).
Local Abbreviation fetch :=
  (fetch http_Get json_Unmarshal pem_Decode x509_ParseCertificate rd).

Local Abbreviation parses := (parses pem_Decode x509_ParseCertificate).
Local Abbreviation parsable := (parsable pem_Decode x509_ParseCertificate).

(** On entries that all parse the loop is silent and stores every
    certificate. *)
Lemma parseCerts_all (fbs fbs' : list (option FallbackConfig)) (s : State) :
  Forall2 parses fbs fbs' ->
  parseCerts fbs s = ([], s, Ret (false, fbs')).
Proof.
  induction 1 as [| o o' l l' (f & cert & -> & Hc & ->) _ IH]; cbn.
  - reflexivity.
  - rewrite Hc. unfold mbind. rewrite IH. reflexivity.
Qed.

Lemma parsable_parses (fbs : list (option FallbackConfig)) :
  Forall parsable fbs -> exists fbs', Forall2 parses fbs fbs'.
Proof.
  induction 1 as [| o l (f & cert & -> & Hc) _ [l' IH]].
  - exists []. constructor.
  - exists (Some (setX509Cert cert f) :: l'). constructor; [| exact IH].
    exists f, cert. auto.
Qed.

Lemma parses_parsable (fbs fbs' : list (option FallbackConfig)) :
  Forall2 parses fbs fbs' -> Forall parsable fbs.
Proof.
  induction 1 as [| o o' l l' (f & cert & -> & Hc & ->) _ IH]; constructor;
    [exists f, cert; auto | exact IH].
Qed.

(** The loop stops at the first certificate that does not parse: one log
    line, the entries before it carry their certificate, the entries from
    it on are untouched (not even looked at, be they nil). *)
Lemma parseCerts_first_bad
    (good good' rest : list (option FallbackConfig))
    (bad : FallbackConfig) (err : error) (s : State) :
  Forall2 parses good good' ->
  parseCert (Cert bad) = inr err ->
  parseCerts (good ++ Some bad :: rest) s =
    ([EvLog ("Unable to parse cert: " +:+ err)], s,
     Ret (true, good' ++ Some bad :: rest)).
Proof.
  intros Hgood Hbad.
  induction Hgood as [| o o' l l' (f & cert & -> & Hc & ->) _ IH]; cbn.
  - rewrite Hbad. reflexivity.
  - rewrite Hc. unfold mbind. rewrite IH. reflexivity.
Qed.

(** A nil entry met before any bad certificate makes the loop panic,
    silently. *)
Lemma parseCerts_first_nil
    (good good' rest : list (option FallbackConfig)) (s : State) :
  Forall2 parses good good' ->
  parseCerts (good ++ None :: rest) s = ([], s, Panic nil_dereference).
Proof.
  intros Hgood.
  induction Hgood as [| o o' l l' (f & cert & -> & Hc & ->) _ IH]; cbn.
  - reflexivity.
  - rewrite Hc. unfold mbind. rewrite IH. reflexivity.
Qed.

(** Where a send comes from. *)
Lemma fetchConfig_send_inv (s : State) (c : S3Config) :
  In (EvSend c) (events (fetchConfig s)) ->
  exists doc fbs',
    decoded s = Some doc /\
    Forall2 parses (Fallbacks doc) fbs' /\
    c = setFallbacks doc fbs' /\
    fetchConfig s = ([EvGet (s3url s); EvSend c], setPoll doc s, Ret tt).
Proof.
  intros Hin.
  assert (Hnl : forall l, forallb is_log l = true -> ~ In (EvSend c) l).
  { intros l Hl Hi. rewrite forallb_forall in Hl. specialize (Hl _ Hi).
    discriminate. }
  destruct (decoded s) as [doc |] eqn:Hd.
  - pose proof (fetchConfig_decoded _ _ pem_Decode x509_ParseCertificate _ _ Hd) as Heq.
    pose proof (parseCerts_frame pem_Decode x509_ParseCertificate
                  (Fallbacks doc) (setPoll doc s)) as [Hst Hlogs].
    pose proof (parseCerts_ok pem_Decode x509_ParseCertificate
                  (Fallbacks doc)) as Hpok.
    destruct (s3config.parseCerts pem_Decode x509_ParseCertificate
                (Fallbacks doc) (setPoll doc s))
      as [[logs s'] [[[|] fbs'] | msg | msg]] eqn:Hpc; rewrite Heq in Hin;
      cbn in Hin, Hst, Hlogs;
      try solve [destruct Hin as [Hin | Hin];
                 [discriminate | exfalso; eapply Hnl; eassumption]].
    destruct Hin as [Hin | Hin]; [discriminate |].
    apply in_app_or in Hin. destruct Hin as [Hin | [Hin | []]];
      [exfalso; eapply Hnl; eassumption |].
    injection Hin as <-.
    specialize (Hpok fbs' (setPoll doc s)). rewrite Hpc in Hpok.
    specialize (Hpok eq_refl).
    exists doc, fbs'. split; [reflexivity |]. split; [exact Hpok |].
    split; [reflexivity |].
    rewrite Heq. rewrite (parseCerts_all _ _ _ Hpok) in Hpc.
    injection Hpc as <- <-. reflexivity.
  - destruct (fetchConfig_undecoded _ _ pem_Decode x509_ParseCertificate _ Hd)
      as (logs & Heq & Hlogs).
    rewrite Heq in Hin. cbn in Hin. destruct Hin as [Hin | Hin]; [discriminate |].
    exfalso. eapply Hnl; eassumption.
Qed.

Lemma fetch_send_in_fetchConfig (s : State) (c : S3Config) :
  In (EvSend c) (events (fetch s)) <-> In (EvSend c) (events (fetchConfig s)).
Proof.
  destruct (fetch_events http_Get json_Unmarshal pem_Decode x509_ParseCertificate rd s)
    as [[-> _] | (i & -> & _)]; [reflexivity |].
  rewrite in_app_iff. cbn. split; [| auto].
  intros [H | [H | []]]; [exact H | discriminate].
Qed.

(** X1: what [fetch] sends is the decoded document with, in every entry,
    the certificate parsed from that entry's PEM text; nothing else of the
    document is changed, and a send is all the first part of the iteration
    does besides its GET. *)
Theorem fetch_sends_the_parsed_document (s : State) (c : S3Config) :
  In (EvSend c) (events (fetch s)) ->
  exists doc,
    decoded s = Some doc /\
    SerialNo c = SerialNo doc /\ Controller c = Controller doc /\
    MinPoll c = MinPoll doc /\ MaxPoll c = MaxPoll doc /\
    Forall2 parses (Fallbacks doc) (Fallbacks c) /\
    events (fetchConfig s) = [EvGet (s3url s); EvSend c].
Proof.
  intros Hin. apply fetch_send_in_fetchConfig in Hin.
  destruct (fetchConfig_send_inv _ _ Hin) as (doc & fbs' & Hd & Hp & -> & Heq).
  exists doc. rewrite Heq. cbn. repeat split; auto.
Qed.

(** X2: [fetch] sends a document exactly when it decoded one whose entries
    are all non-nil with a certificate that parses. *)
Theorem fetch_publishes_iff_all_certificates_parse (s : State) :
  (exists c, In (EvSend c) (events (fetch s))) <->
  (exists doc, decoded s = Some doc /\ Forall parsable (Fallbacks doc)).
Proof.
  split.
  - intros [c Hin]. apply fetch_send_in_fetchConfig in Hin.
    destruct (fetchConfig_send_inv _ _ Hin) as (doc & fbs' & Hd & Hp & _).
    exists doc. split; [exact Hd |]. eapply parses_parsable, Hp.
  - intros (doc & Hd & Hall).
    destruct (parsable_parses _ Hall) as [fbs' Hp].
    exists (setFallbacks doc fbs'). apply fetch_send_in_fetchConfig.
    rewrite (fetchConfig_decoded _ _ pem_Decode x509_ParseCertificate _ _ Hd).
    rewrite (parseCerts_all _ _ _ Hp). cbn. auto.
Qed.

(** X3: an iteration sends at most one document. *)
Theorem fetch_sends_at_most_once (s : State) :
  (length (List.filter is_send (events (fetch s))) <= 1)%nat.
Proof.
  assert (Hc : (length (List.filter is_send (events (fetchConfig s))) <= 1)%nat).
  { destruct (fetchConfig_shape http_Get json_Unmarshal pem_Decode
                x509_ParseCertificate s) as (logs & sends & -> & Hlogs & Hsends).
    cbn. rewrite List.filter_app.
    assert (Hl : List.filter is_send logs = []).
    { clear -Hlogs. induction logs as [| [| | |] l IH]; cbn in *;
        try discriminate; auto. }
    rewrite Hl. destruct Hsends as [-> | (c & -> & _)]; cbn; lia. }
  destruct (fetch_events http_Get json_Unmarshal pem_Decode x509_ParseCertificate rd s)
    as [[-> _] | (i & -> & _)]; [exact Hc |].
  rewrite List.filter_app. cbn. rewrite app_nil_r. exact Hc.
Qed.

(** X4: a decoded document is rejected at its first certificate that does
    not parse: the poll bounds are stored, the error of that certificate is
    the one line logged, nothing is sent, and the entries after it are not
    looked at (a nil entry among them does no harm). *)
Theorem fetch_rejects_at_first_bad_certificate
    (s : State) (doc : S3Config)
    (good good' rest : list (option FallbackConfig))
    (bad : FallbackConfig) (err : error) :
  decoded s = Some doc ->
  Fallbacks doc = good ++ Some bad :: rest ->
  Forall2 parses good good' ->
  parseCert (Cert bad) = inr err ->
  fetchConfig s =
    ([EvGet (s3url s); EvLog ("Unable to parse cert: " +:+ err)],
     setPoll doc s, Ret tt).
Proof.
  intros Hd Hfbs Hgood Hbad.
  rewrite (fetchConfig_decoded _ _ pem_Decode x509_ParseCertificate _ _ Hd), Hfbs.
  rewrite (parseCerts_first_bad _ _ _ _ _ _ Hgood Hbad). reflexivity.
Qed.

(** X5: a nil entry (a JSON null) met before any bad certificate makes the
    iteration panic on the nil dereference, after the poll bounds were
    stored and before anything is logged, sent or slept. *)
Theorem fetch_panics_on_null_fallback
    (s : State) (doc : S3Config)
    (good good' rest : list (option FallbackConfig)) :
  decoded s = Some doc ->
  Fallbacks doc = good ++ None :: rest ->
  Forall2 parses good good' ->
  fetch s = ([EvGet (s3url s)], setPoll doc s, Panic nil_dereference).
Proof.
  intros Hd Hfbs Hgood.
  assert (Hc : fetchConfig s = ([EvGet (s3url s)], setPoll doc s, Panic nil_dereference)).
  { rewrite (fetchConfig_decoded _ _ pem_Decode x509_ParseCertificate _ _ Hd), Hfbs.
    rewrite (parseCerts_first_nil _ _ _ _ Hgood). reflexivity. }
  rewrite fetch_eq. cbv zeta. rewrite Hc. reflexivity.
Qed.

(** What an iteration without a decoded document logs: one line, or three
    for a status other than 200. *)
Lemma fetchConfig_undecoded_logs (s : State) :
  decoded s = None ->
  exists logs,
    fetchConfig s = (EvGet (s3url s) :: logs, s, Ret tt) /\
    forallb is_log logs = true /\
    (length logs = 1 \/ length logs = 3)%nat.
Proof.
  unfold s3config.decoded, s3config.fetchConfig, mbind, mget, emit. cbn.
  destruct (http_Get (s3url s)) as [resp | err]; cbn.
  - destruct (Body resp) as [body | err]; cbn.
    + destruct (negb (StatusCode resp =? 200)); cbn.
      * intros _. eexists. repeat split. auto.
      * destruct (json_Unmarshal body) as [config | err]; cbn.
        -- discriminate.
        -- intros _. eexists. repeat split. auto.
    + intros _. eexists. repeat split. auto.
  - intros _. eexists. repeat split. auto.
Qed.

(** X6: an iteration that gets no document (GET or read error, status other
    than 200, JSON error) is not fatal: it logs, sends nothing, leaves the
    package variables as they were and sleeps for the interval drawn from
    the old bounds. *)
Theorem failed_fetch_is_not_fatal (s : State) (randomVal : Z) :
  decoded s = None ->
  Reader_ok rd ->
  is_int64 (minPoll s) ->
  is_int64 (maxPoll s) ->
  minPoll s < maxPoll s ->
  maxPoll s - minPoll s <= max_int64 ->
  rd_Int rd (maxPoll s - minPoll s) = inl randomVal ->
  exists logs,
    fetch s = (EvGet (s3url s) :: logs ++ [EvSleep (minutes (randomVal + minPoll s))],
               s, Ret tt) /\
    forallb is_log logs = true /\
    (length logs = 1 \/ length logs = 3)%nat /\
    minPoll s <= randomVal + minPoll s < maxPoll s.
Proof.
  intros Hd Hrd Hmin Hmax Hlt Hfit Hdraw.
  destruct (fetchConfig_undecoded_logs _ Hd) as (logs & Heq & Hlogs & Hlen).
  destruct (pollInterval_value rd s randomVal Hrd Hmin Hmax Hlt Hfit Hdraw) as [Hi Hv].
  exists logs. split; [| split; [exact Hlogs | split; [exact Hlen | lia]]].
  rewrite fetch_eq. cbv zeta. rewrite Heq. cbn [ending final events fst snd].
  rewrite Hi. reflexivity.
Qed.

(** X7: a failure of the entropy source is the one fatal error of an
    iteration: when the bound is positive and [rand.Int] returns an error,
    [fetch] ends the process through [log.Fatalf], without sleeping. *)
Theorem entropy_failure_is_fatal (s : State) (err : error) :
  ending (fetchConfig s) = Ret tt ->
  0 < wrap64 (maxPoll (final (fetchConfig s)) - minPoll (final (fetchConfig s))) ->
  rd_Int rd (wrap64 (maxPoll (final (fetchConfig s)) - minPoll (final (fetchConfig s))))
    = inr err ->
  fetch s = (events (fetchConfig s), final (fetchConfig s),
             Exit ("Unable to update poll interval: " +:+ err)).
Proof.
  intros Hend Hpos Hdraw.
  rewrite fetch_eq. cbv zeta. rewrite Hend, pollInterval_eq. cbn [ending snd].
  unfold rand_Int.
  destruct (Z.leb_spec
              (wrap64 (maxPoll (final (fetchConfig s)) - minPoll (final (fetchConfig s)))) 0);
    [lia |].
  rewrite Hdraw. reflexivity.
Qed.

(** [log.Fatalf] is reached in no other way. *)
Lemma fetchConfig_no_exit (s : State) (msg : string) :
  ending (fetchConfig s) <> Exit msg.
Proof.
  destruct (decoded s) as [doc |] eqn:Hd.
  - rewrite (fetchConfig_decoded _ _ pem_Decode x509_ParseCertificate _ _ Hd).
    pose proof (parseCerts_no_exit pem_Decode x509_ParseCertificate
                  (Fallbacks doc) (setPoll doc s)) as Hne.
    destruct (s3config.parseCerts pem_Decode x509_ParseCertificate
                (Fallbacks doc) (setPoll doc s))
      as [[logs s'] [[[|] fbs'] | m | m]]; cbn in *; try discriminate.
    exfalso. apply (Hne m). reflexivity.
  - destruct (fetchConfig_undecoded _ _ pem_Decode x509_ParseCertificate _ Hd)
      as (logs & -> & _). discriminate.
Qed.

(** X8: conversely, whenever [fetch] ends the process through [log.Fatalf]
    it is because [rand.Int] returned an error. *)
Theorem fetch_exits_only_on_entropy_failure (s : State) (msg : string) :
  ending (fetch s) = Exit msg ->
  exists err,
    rd_Int rd (wrap64 (maxPoll (final (fetchConfig s)) - minPoll (final (fetchConfig s))))
      = inr err /\
    msg = "Unable to update poll interval: " +:+ err.
Proof.
  rewrite fetch_eq. cbv zeta.
  destruct (ending (fetchConfig s)) as [[] | m | m] eqn:He.
  - rewrite pollInterval_eq. cbn [ending snd]. unfold rand_Int.
    destruct (_ <=? 0); [discriminate |].
    destruct (rd_Int rd _) as [v | err]; [discriminate |].
    intros [= <-]. eauto.
  - exfalso. eapply fetchConfig_no_exit, He.
  - discriminate.
Qed.

Lemma minutes_exact (interval : Z) :
  0 <= interval <= 153722867 -> minutes interval = interval * time_Minute.
Proof.
  intros H. unfold minutes. apply wrap64_small.
  unfold is_int64, min_int64, max_int64, time_Minute. lia.
Qed.

(** X9: for poll bounds between 0 and 153722868 minutes (the int64 limit of
    a Duration in nanoseconds) the iteration sleeps a whole number of
    minutes, at least [minPoll] and less than [maxPoll]. *)
Theorem fetch_sleeps_whole_minutes (s : State) (randomVal : Z) :
  Reader_ok rd ->
  ending (fetchConfig s) = Ret tt ->
  0 <= minPoll (final (fetchConfig s)) ->
  minPoll (final (fetchConfig s)) < maxPoll (final (fetchConfig s)) ->
  maxPoll (final (fetchConfig s)) <= 153722868 ->
  rd_Int rd (maxPoll (final (fetchConfig s)) - minPoll (final (fetchConfig s)))
    = inl randomVal ->
  exists d,
    events (fetch s) = events (fetchConfig s) ++ [EvSleep d] /\
    ending (fetch s) = Ret tt /\
    d mod time_Minute = 0 /\
    minPoll (final (fetchConfig s)) * time_Minute <= d
      < maxPoll (final (fetchConfig s)) * time_Minute.
Proof.
  intros Hrd Hend Hmin Hlt Hmax Hdraw.
  destruct (pollInterval_value rd (final (fetchConfig s)) randomVal Hrd) as [Hi Hv];
    try (unfold is_int64, min_int64, max_int64; lia); try assumption.
  exists ((randomVal + minPoll (final (fetchConfig s))) * time_Minute).
  rewrite fetch_eq. cbv zeta. rewrite Hend, Hi. cbn [ending events fst snd].
  rewrite minutes_exact by lia.
  split; [reflexivity |]. split; [reflexivity |]. split.
  - apply Z.mod_mul. unfold time_Minute. lia.
  - unfold time_Minute. lia.
Qed.

(** X10: the first thing an iteration does is the GET of [s3url], and it
    never changes [s3url]. *)
Theorem fetch_gets_s3url_and_keeps_it (s : State) :
  head (events (fetch s)) = Some (EvGet (s3url s)) /\
  s3url (final (fetch s)) = s3url s.
Proof.
  split.
  - destruct (fetchConfig_shape http_Get json_Unmarshal pem_Decode
                x509_ParseCertificate s) as (logs & sends & Hev & _).
    destruct (fetch_events http_Get json_Unmarshal pem_Decode
                x509_ParseCertificate rd s) as [[-> _] | (i & -> & _)];
      rewrite Hev; reflexivity.
  - rewrite fetch_final, fetchConfig_final.
    destruct (decoded s); reflexivity.
Qed.

End fetch_more.

(** * Further properties of the fallback registry *)

Section registry_more.

Import proxy.

(** What the update loop stores for each of its entries. *)
Lemma updateLoop_entries (configs : list (option s3config.FallbackConfig)) :
  forall (i : nat) (fallbacks new : list Fallback),
    updateLoop i configs fallbacks = Ret new ->
    forall (k : nat) (o : option s3config.FallbackConfig),
      configs !! k = Some o ->
      exists f cert,
        o = Some f /\ s3config.X509Cert f = Some cert /\
        new !! (i + k)%nat
          = Some {| FallbackConfig := f;
                    tlsConfig := Some {| RootCAs := [cert];
                                         InsecureSkipVerify := true |} |}.
Proof.
  induction configs as [| o0 rest IH]; intros i fallbacks new Hloop k o Hk.
  - discriminate.
  - destruct k as [| k].
    + injection Hk as <-. destruct o0 as [f |]; [| discriminate].
      destruct (updateLoop_head _ _ _ _ _ Hloop) as (cert & Hcert & Hnew).
      exists f, cert. rewrite Nat.add_0_r. auto.
    + cbn in Hk. destruct o0 as [f |]; [| discriminate].
      cbn in Hloop.
      destruct (s3config.X509Cert f) as [cert |]; cbn in Hloop; [| discriminate].
      case_bool_decide; [| discriminate].
      replace (i + S k)%nat with (S i + k)%nat by lia.
      eapply IH; eassumption.
Qed.

(** The loop never leaves the slice it was given, and never calls
    [log.Fatalf]. *)
Lemma updateLoop_aborts (configs : list (option s3config.FallbackConfig)) :
  forall (i : nat) (fallbacks : list Fallback) (msg : string),
    (i + length configs <= length fallbacks)%nat ->
    updateLoop i configs fallbacks <> Exit msg /\
    (updateLoop i configs fallbacks = Panic msg ->
     msg = nil_dereference \/ msg = "adding nil Certificate to CertPool").
Proof.
  induction configs as [| [f |] rest IH]; intros i fallbacks msg Hlen; cbn.
  - split; discriminate.
  - destruct (s3config.X509Cert f) as [cert |]; cbn.
    + cbn in Hlen. rewrite bool_decide_eq_true_2 by lia.
      apply IH. rewrite length_insert. lia.
    + split; [discriminate |]. intros [= <-]. auto.
  - split; [discriminate |]. intros [= <-]. auto.
Qed.

(** X11: when [doUpdateFallbacks] returns, the fallback list has one entry
    per entry of the document, in the same order, each with a TLS
    configuration whose pool holds that entry's certificate and nothing
    else, and with [InsecureSkipVerify] set. *)
Theorem apply_builds_one_trusted_fallback_per_entry
    (config : s3config.S3Config) (old new : list Fallback) :
  doUpdateFallbacks config old = Ret new ->
  length new = length (s3config.Fallbacks config) /\
  forall (i : nat) (o : option s3config.FallbackConfig),
    s3config.Fallbacks config !! i = Some o ->
    exists f cert,
      o = Some f /\ s3config.X509Cert f = Some cert /\
      new !! i = Some {| FallbackConfig := f;
                         tlsConfig := Some {| RootCAs := [cert];
                                              InsecureSkipVerify := true |} |}.
Proof.
  unfold doUpdateFallbacks. intros Happly. split.
  - destruct (updateLoop_frame _ _ _ _ Happly) as [Hlen _].
    rewrite Hlen. apply length_replicate.
  - intros i o Hi. apply (updateLoop_entries _ _ _ _ Happly i o Hi).
Qed.

(** X12: [doUpdateFallbacks] returns exactly when every entry of the
    document is non-nil and carries a parsed certificate; otherwise it
    panics, on the nil dereference or in [AddCert], and never on an index
    out of range. *)
Theorem apply_returns_iff_every_entry_has_a_certificate
    (config : s3config.S3Config) (old : list Fallback) :
  ((exists new, doUpdateFallbacks config old = Ret new) <->
   Forall (fun o => exists f cert, o = Some f /\ s3config.X509Cert f = Some cert)
          (s3config.Fallbacks config)) /\
  (forall msg, doUpdateFallbacks config old <> Exit msg) /\
  (forall msg, doUpdateFallbacks config old = Panic msg ->
               msg = nil_dereference \/ msg = "adding nil Certificate to CertPool").
Proof.
  assert (Hlen : (0 + length (s3config.Fallbacks config)
                  <= length (replicate (length (s3config.Fallbacks config)) zeroFallback))%nat).
  { rewrite length_replicate. lia. }
  split; [split |].
  - intros [new Happly]. apply Forall_lookup. intros i o Hi.
    destruct (updateLoop_entries _ _ _ _ Happly i o Hi) as (f & cert & -> & Hc & _).
    eauto.
  - intros Hall. apply (updateLoop_total _ Hall), Hlen.
  - split; intros msg; apply (updateLoop_aborts _ _ _ msg Hlen).
Qed.

End registry_more.

(** * The fetcher and the registry together *)

Section system_more.

Import s3config.

Variable http_Get : string -> Response + error.
Variable json_Unmarshal : string -> S3Config + error.
Variable pem_Decode : string -> option (list byte).
Variable x509_ParseCertificate : list byte -> Certificate + error.
Variable rd : Reader.

Local Abbreviation parseCert := (parseCert pem_Decode x509_ParseCertificate).
Local Abbreviation parsable := (parsable pem_Decode x509_ParseCertificate).
Local Abbreviation parses := (parses pem_Decode x509_ParseCertificate).
Local Abbreviation decoded := (decoded http_Get json_Unmarshal).
Local Abbreviation fetchConfig :=
  (fetchConfig http_Get json_Unmarshal pem_Decode x509_ParseCertificate).
Local Abbreviation fetch :=
  (fetch http_Get json_Unmarshal pem_Decode x509_ParseCertificate rd).
Local Abbreviation fetcher :=
  (fetcher http_Get json_Unmarshal pem_Decode x509_ParseCertificate rd).

Lemma updateFallbacks_skip (pre tr : list Event) (fallbacks : list proxy.Fallback) :
  forallb (fun e => negb (is_send e)) pre = true ->
  updateFallbacks (pre ++ tr) fallbacks = updateFallbacks tr fallbacks.
Proof.
  induction pre as [| [url | msg | config | d] pre IH]; cbn; auto; discriminate.
Qed.

Lemma logs_no_send (logs : list Event) :
  forallb is_log logs = true -> forallb (fun e => negb (is_send e)) logs = true.
Proof. apply forallb_weaken. intros [| | |]; cbn; congruence. Qed.

(** The events of an iteration, as far as the registry is concerned:
    nothing, or one send of a document that applies. *)
Lemma fetch_events_for_registry (s : State) :
  exists pre post,
    forallb (fun e => negb (is_send e)) pre = true /\
    forallb (fun e => negb (is_send e)) post = true /\
    (events (fetch s) = pre ++ post \/
     exists c, events (fetch s) = pre ++ EvSend c :: post /\
               In (EvSend c) (events (fetchConfig s))).
Proof.
  destruct (fetchConfig_shape http_Get json_Unmarshal pem_Decode
              x509_ParseCertificate s) as (logs & sends & Hev & Hlogs & Hsends).
  assert (Hpre : forallb (fun e => negb (is_send e)) (EvGet (s3url s) :: logs) = true).
  { cbn. apply logs_no_send, Hlogs. }
  destruct (fetch_events http_Get json_Unmarshal pem_Decode x509_ParseCertificate rd s)
    as [[Hf _] | (i & Hf & _)]; rewrite Hf, Hev;
    destruct Hsends as [-> | (c & -> & _)].
  - exists (EvGet (s3url s) :: logs), [].
    split; [exact Hpre |]. split; [reflexivity |]. left. reflexivity.
  - exists (EvGet (s3url s) :: logs), [].
    split; [exact Hpre |]. split; [reflexivity |].
    right. exists c. split; [reflexivity |].
    cbn. right. apply in_or_app. right. left. reflexivity.
  - exists (EvGet (s3url s) :: logs), [EvSleep (minutes i)].
    split; [exact Hpre |]. split; [reflexivity |]. left.
    rewrite app_nil_r. reflexivity.
  - exists (EvGet (s3url s) :: logs), [EvSleep (minutes i)].
    split; [exact Hpre |]. split; [reflexivity |].
    right. exists c. split.
    + cbn. rewrite <- app_assoc. reflexivity.
    + cbn. right. apply in_or_app. right. left. reflexivity.
Qed.

(** X13: whatever an iteration of the fetcher does, [doUpdateFallbacks] gets
    through it without a panic: a document that is sent always applies. *)
Theorem published_documents_never_crash_the_registry
    (s : State) (fallbacks : list proxy.Fallback) :
  exists new, updateFallbacks (events (fetch s)) fallbacks = Ret new.
Proof.
  destruct (fetch_events_for_registry s) as (pre & post & Hpre & Hpost & [-> | (c & -> & Hin)]).
  - exists fallbacks. rewrite updateFallbacks_skip by exact Hpre.
    apply updateFallbacks_no_send, Hpost.
  - destruct (sent_documents_apply _ _ _ _ _ _ fallbacks Hin) as (new & Hnew & _).
    exists new. rewrite updateFallbacks_skip by exact Hpre.
    cbn -[proxy.doUpdateFallbacks]. rewrite Hnew. cbn.
    apply updateFallbacks_no_send, Hpost.
Qed.

(** X14: from the document to the selection: when the iteration decodes a
    document whose entries all parse, the fallback then selected is the
    first entry of the document, with the certificate parsed from its PEM
    text as the only root of its TLS configuration. *)
Theorem fetched_document_reaches_selection
    (s : State) (doc : S3Config) (first : FallbackConfig)
    (rest : list (option FallbackConfig)) (old : list proxy.Fallback) :
  decoded s = Some doc ->
  Fallbacks doc = Some first :: rest ->
  Forall parsable (Fallbacks doc) ->
  exists cert new,
    parseCert (Cert first) = inl cert /\
    updateFallbacks (events (fetch s)) old = Ret new /\
    length new = length (Fallbacks doc) /\
    proxy.getFallback new
      = Ret {| proxy.FallbackConfig := setX509Cert cert first;
               proxy.tlsConfig :=
                 Some {| proxy.RootCAs := [cert];
                         proxy.InsecureSkipVerify := true |} |}.
Proof.
  intros Hd Hfbs Hall.
  destruct (parsable_parses _ _ _ Hall) as [fbs' Hp].
  assert (Hc : fetchConfig s
               = ([EvGet (s3url s); EvSend (setFallbacks doc fbs')], setPoll doc s, Ret tt)).
  { rewrite (fetchConfig_decoded _ _ pem_Decode x509_ParseCertificate _ _ Hd).
    rewrite (parseCerts_all _ _ _ _ _ Hp). reflexivity. }
  assert (Hin : In (EvSend (setFallbacks doc fbs')) (events (fetchConfig s))).
  { rewrite Hc. cbn. auto. }
  destruct (sent_documents_apply _ _ _ _ _ _ old Hin) as (new & Hnew & Hlen).
  assert (Hl : length new = length (Fallbacks doc)).
  { rewrite Hlen. cbn. symmetry. eapply Forall2_length, Hp. }
  rewrite Hfbs in Hp. inversion Hp as [| o o' l l' (f & cert & Hf & Hcert & Ho') Hrest]; subst.
  injection Hf as <-.
  exists cert, new. split; [exact Hcert |].
  assert (Hup : updateFallbacks (events (fetch s)) old = Ret new).
  { destruct (fetch_events http_Get json_Unmarshal pem_Decode
                x509_ParseCertificate rd s) as [[-> _] | (i & -> & _)];
      rewrite Hc; cbn -[proxy.doUpdateFallbacks]; rewrite Hnew; reflexivity. }
  split; [exact Hup |]. split.
  - exact Hl.
  - apply getFallback_first.
    unfold proxy.doUpdateFallbacks in Hnew. cbn [Fallbacks setFallbacks] in Hnew.
    destruct (updateLoop_head _ _ _ _ _ Hnew) as (cert' & Hc' & Hnew0).
    cbn in Hc'. injection Hc' as <-. exact Hnew0.
Qed.

End system_more.

(** * Further properties of the relay *)

Section token_facts.

Import base64.

Lemma length_string_of_list (l : list ascii) :
  String.length (string_of_list_ascii l) = length l.
Proof. induction l as [| c l IH]; cbn; [reflexivity | now rewrite IH]. Qed.

(** Four characters for every three bytes, the last group padded. *)
Lemma Encode_length (src : list byte) :
  length (Encode src) = (4 * ((length src + 2) / 3))%nat.
Proof.
  induction src as [| a | a b | a b c rest IH] using list_ind3.
  - reflexivity.
  - reflexivity.
  - reflexivity.
  - cbn [Encode length]. rewrite IH.
    replace (S (S (S (length rest))) + 2)%nat with (length rest + 2 + 1 * 3)%nat by lia.
    rewrite Nat.div_add by discriminate. lia.
Qed.

Lemma encodeChar_is_base64_char (i : N) : (i < 64)%N -> is_base64_char (encodeChar i) = true.
Proof.
  intros Hi. unfold is_base64_char. now rewrite decodeChar_encodeChar.
Qed.

Lemma Encode_chars (src : list byte) : forallb is_base64_char (Encode src) = true.
Proof.
  induction src as [| a | a b | a b c rest IH] using list_ind3;
    cbn [Encode forallb];
    rewrite ?encodeChar_is_base64_char
      by auto using sextet0_bound, sextet1_bound, sextet2_bound, sextet3_bound;
    auto.
Qed.

End token_facts.

Section session_more.

Import proxy.

Variable net : Net.
Variable rd : Reader.

(** X16: a padding token is made of characters of the base64 alphabet and
    of the padding character only, its length is four times the number of
    three-byte groups of the length drawn, and so at most 132: [a little
    over 100 characters]. *)
Theorem padding_token_shape (str : string) :
  Reader_ok rd ->
  randomLengthString rd = Ret (inl str) ->
  exists bLength : Z,
    rd_Int rd 100 = inl bLength /\
    Z.of_nat (String.length str) = 4 * ((bLength + 2) / 3) /\
    (String.length str <= 132)%nat /\
    forallb base64.is_base64_char (list_ascii_of_string str) = true.
Proof.
  intros [Hint Hread]. unfold randomLengthString, rand_Int. cbn.
  destruct (rd_Int rd 100) as [bLength | err] eqn:Hdraw; [| discriminate].
  assert (Hrange : 0 <= bLength < 100) by (apply Hint; [lia | exact Hdraw]).
  destruct (Z.ltb_spec bLength 0); [lia |].
  destruct (rand_Read rd (Z.to_nat bLength)) as [b | err] eqn:Hb; [| discriminate].
  intros [= <-]. exists bLength. split; [reflexivity |].
  assert (Hlen : length b = Z.to_nat bLength) by (apply Hread, Hb).
  assert (Hl : Z.of_nat (String.length (base64.EncodeToString b))
               = 4 * ((bLength + 2) / 3)).
  { unfold base64.EncodeToString.
    rewrite length_string_of_list, Encode_length, Hlen.
    rewrite Nat2Z.inj_mul, Nat2Z.inj_div, Nat2Z.inj_add.
    rewrite Z2Nat.id by lia. reflexivity. }
  split; [exact Hl |]. split.
  - assert ((bLength + 2) / 3 < 34) by (apply Z.div_lt_upper_bound; lia). lia.
  - unfold base64.EncodeToString.
    rewrite list_ascii_of_string_of_list_ascii. apply Encode_chars.
Qed.

(** X17: [randomLengthString] never aborts, and it returns an error exactly
    when the entropy source does, for the length or for the bytes. *)
Theorem padding_token_fails_only_with_the_entropy_source (err : error) :
  Reader_ok rd ->
  (exists r, randomLengthString rd = Ret r) /\
  (randomLengthString rd = Ret (inr err) <->
   rd_Int rd 100 = inr err \/
   exists bLength, rd_Int rd 100 = inl bLength /\
                   rd_Read rd (Z.to_nat bLength) = inr err).
Proof.
  intros [Hint _]. unfold randomLengthString, rand_Int, rand_Read. cbn.
  destruct (rd_Int rd 100) as [bLength | e] eqn:Hdraw.
  - assert (0 <= bLength < 100) by (apply Hint; [lia | exact Hdraw]).
    destruct (Z.ltb_spec bLength 0); [lia |].
    destruct (rd_Read rd (Z.to_nat bLength)) as [b | e] eqn:Hb.
    + split; [eauto |]. split; [discriminate |].
      intros [Hl | (n & [= <-] & Hr)]; congruence.
    + split; [eauto |]. split.
      * intros [= <-]. right. eauto.
      * intros [Hl | (n & [= <-] & Hr)]; congruence.
  - split; [eauto |]. split.
    + intros [= <-]. auto.
    + intros [[= <-] | (n & Hl & _)]; [reflexivity | discriminate].
Qed.

(** Every way [handleLocalRequest] can return. *)
Lemma handleLocalRequest_cases (fallbacks : list Fallback)
    (resp : http.ResponseWriter) (req : http.Request) (s : Session) :
  handleLocalRequest net rd fallbacks resp req = Ret s ->
  exists fb,
    getFallback fallbacks = Ret fb /\
    ((connOut s = None /\ piping s = false) \/
     exists conn,
       connOut s = Some conn /\
       remoteAddr conn = s3config.Ip (FallbackConfig fb) +:+ ":" +:+
                         s3config.Port (FallbackConfig fb) /\
       connConfig conn = tlsConfig fb /\
       ((sent conn = [] /\ piping s = false) \/
        (exists req', sent conn = [req'] /\ piping s = true))).
Proof.
  unfold handleLocalRequest.
  destruct (getFallback fallbacks) as [fb | msg | msg]; cbn [obind]; try discriminate.
  intros Hrun. exists fb. split; [reflexivity |]. revert Hrun.
  destruct (tls_Dial net "tcp" _ (tlsConfig fb)) as [err |].
  { intros [= <-]. left. split; reflexivity. }
  destruct (http.Hijack (hijack_answer net) resp) as [resp1 [err |]].
  { intros [= <-]. right. eexists. cbn. repeat split. left. split; reflexivity. }
  destruct (randomLengthString rd) as [[str | err] | msg | msg]; cbn [obind];
    try discriminate.
  - intros [= <-]. right. eexists. cbn. repeat split. right. eauto.
  - intros [= <-]. right. eexists. cbn. repeat split. left. split; reflexivity.
Qed.

(** X18: in every session that returns, the only upstream dialled is the
    address [Ip:Port] of the fallback selected, with that fallback's own TLS
    configuration; at most one request is written to it; and the copying
    between client and upstream is started exactly when that request was
    written. *)
Theorem session_dials_the_selected_fallback_only
    (fallbacks : list Fallback) (resp : http.ResponseWriter)
    (req : http.Request) (s : Session) :
  handleLocalRequest net rd fallbacks resp req = Ret s ->
  exists fb,
    getFallback fallbacks = Ret fb /\
    (forall conn, connOut s = Some conn ->
       remoteAddr conn = s3config.Ip (FallbackConfig fb) +:+ ":" +:+
                         s3config.Port (FallbackConfig fb) /\
       connConfig conn = tlsConfig fb /\
       (length (sent conn) <= 1)%nat) /\
    (piping s = true <-> exists conn, connOut s = Some conn /\ sent conn <> []).
Proof.
  intros Hrun.
  destruct (handleLocalRequest_cases _ _ _ _ Hrun)
    as (fb & Hfb & [[Hnone Hp] | (conn & Hc & Haddr & Hcfg & Hsent)]).
  - exists fb. split; [exact Hfb |]. split.
    + intros conn Hconn. congruence.
    + rewrite Hp, Hnone. split; [discriminate |]. intros (conn & Hconn & _). discriminate.
  - exists fb. split; [exact Hfb |]. split.
    + intros conn' Hconn. assert (conn' = conn) as -> by congruence.
      split; [exact Haddr |]. split; [exact Hcfg |].
      destruct Hsent as [[-> _] | (req' & -> & _)]; cbn; lia.
    + destruct Hsent as [[Hs Hp] | (req' & Hs & Hp)]; rewrite Hp.
      * split; [discriminate |]. intros (conn' & Hconn & Hne).
        assert (conn' = conn) as -> by congruence. congruence.
      * split; [| reflexivity]. intros _. exists conn. split; [exact Hc |].
        rewrite Hs. discriminate.
Qed.

(** X19: a request ends the process only through [log.Fatalf] of
    [getFallback] on an empty fallback list; with an entropy source that
    keeps its contract, handling a request never panics. *)
Theorem request_aborts_only_without_fallbacks
    (fallbacks : list Fallback) (resp : http.ResponseWriter) (req : http.Request) :
  Reader_ok rd ->
  (forall msg, handleLocalRequest net rd fallbacks resp req <> Panic msg) /\
  (forall msg, handleLocalRequest net rd fallbacks resp req = Exit msg ->
               fallbacks = [] /\ msg = "No fallback configured!").
Proof.
  intros Hrd. destruct (randomLengthString_returns rd Hrd) as [r Hr].
  unfold handleLocalRequest, getFallback.
  destruct fallbacks as [| fb l]; cbn -[randomLengthString].
  - split; [discriminate |]. intros msg [= <-]. auto.
  - destruct (tls_Dial net "tcp" _ (tlsConfig fb)) as [err |];
      [split; discriminate |].
    destruct (http.Hijack (hijack_answer net) resp) as [resp1 [err |]];
      [split; discriminate |].
    rewrite Hr. cbn. destruct r; split; discriminate.
Qed.

End session_more.

(** ** The further properties on the sample inputs *)

Lemma sample_first_parses :
  Forall2 (s3config.parses sample.pem_Decode sample.x509_ParseCertificate)
    [Some (sample.fallback "10.0.0.1" "alpha" sample.pem_text)]
    [Some (s3config.setX509Cert {| Raw := sample.der |}
             (sample.fallback "10.0.0.1" "alpha" sample.pem_text))].
Proof.
  constructor; [| constructor].
  eexists _, _. repeat split.
Qed.

Lemma fetch_sends_the_parsed_document_witness :
  exists doc,
    s3config.decoded (sample.http_Get "good") sample.json_Unmarshal sample.s0
      = Some doc /\
    s3config.SerialNo sample.doc_good_sent = s3config.SerialNo doc /\
    s3config.Controller sample.doc_good_sent = s3config.Controller doc /\
    s3config.MinPoll sample.doc_good_sent = s3config.MinPoll doc /\
    s3config.MaxPoll sample.doc_good_sent = s3config.MaxPoll doc /\
    Forall2 (s3config.parses sample.pem_Decode sample.x509_ParseCertificate)
      (s3config.Fallbacks doc) (s3config.Fallbacks sample.doc_good_sent) /\
    events (s3config.fetchConfig (sample.http_Get "good") sample.json_Unmarshal
              sample.pem_Decode sample.x509_ParseCertificate sample.s0)
      = [s3config.EvGet (s3config.s3url sample.s0);
         s3config.EvSend sample.doc_good_sent].
Proof.
  apply (fetch_sends_the_parsed_document (sample.http_Get "good")
           sample.json_Unmarshal sample.pem_Decode sample.x509_ParseCertificate
           sample.rd sample.s0 sample.doc_good_sent).
  right. left. reflexivity.
Defined.

Lemma fetch_rejects_at_first_bad_certificate_witness :
  s3config.fetchConfig (sample.http_Get "bad-cert") sample.json_Unmarshal
    sample.pem_Decode sample.x509_ParseCertificate sample.s0
  = ([s3config.EvGet (s3config.s3url sample.s0);
      s3config.EvLog "Unable to parse cert: No PEM encoded certificate found"],
     s3config.setPoll sample.doc_bad_cert sample.s0, Ret tt).
Proof.
  apply (fetch_rejects_at_first_bad_certificate (sample.http_Get "bad-cert")
           sample.json_Unmarshal sample.pem_Decode sample.x509_ParseCertificate
           sample.s0 sample.doc_bad_cert
           [Some (sample.fallback "10.0.0.1" "alpha" sample.pem_text)]
           [Some (s3config.setX509Cert {| Raw := sample.der |}
                    (sample.fallback "10.0.0.1" "alpha" sample.pem_text))]
           []
           (sample.fallback "10.0.0.2" "beta" "not a certificate")
           "No PEM encoded certificate found").
  - reflexivity.
  - reflexivity.
  - constructor; [| constructor]. eexists _, _. repeat split.
  - reflexivity.
Defined.

Lemma fetch_panics_on_null_fallback_witness :
  s3config.fetch (sample.http_Get "null") sample.json_null
    sample.pem_Decode sample.x509_ParseCertificate sample.rd sample.s0
  = ([s3config.EvGet (s3config.s3url sample.s0)],
     s3config.setPoll sample.doc_null sample.s0, Panic nil_dereference).
Proof.
  apply (fetch_panics_on_null_fallback (sample.http_Get "null") sample.json_null
           sample.pem_Decode sample.x509_ParseCertificate sample.rd
           sample.s0 sample.doc_null
           [Some (sample.fallback "10.0.0.1" "alpha" sample.pem_text)]
           [Some (s3config.setX509Cert {| Raw := sample.der |}
                    (sample.fallback "10.0.0.1" "alpha" sample.pem_text))]
           []).
  - reflexivity.
  - reflexivity.
  - constructor; [| constructor]. eexists _, _. repeat split.
Defined.

Lemma failed_fetch_is_not_fatal_witness :
  exists logs,
    s3config.fetch sample.http_down sample.json_Unmarshal sample.pem_Decode
      sample.x509_ParseCertificate sample.rd sample.s0
    = (s3config.EvGet (s3config.s3url sample.s0)
         :: logs ++ [s3config.EvSleep (minutes (9 + s3config.minPoll sample.s0))],
       sample.s0, Ret tt) /\
    forallb s3config.is_log logs = true /\
    (length logs = 1 \/ length logs = 3)%nat /\
    s3config.minPoll sample.s0 <= 9 + s3config.minPoll sample.s0
      < s3config.maxPoll sample.s0.
Proof.
  apply (failed_fetch_is_not_fatal sample.http_down sample.json_Unmarshal
           sample.pem_Decode sample.x509_ParseCertificate sample.rd sample.s0 9).
  - reflexivity.
  - split.
    + intros max v Hmax [= <-]. lia.
    + intros n bs [= <-]. apply repeat_length.
  - unfold is_int64, min_int64, max_int64. cbn. lia.
  - unfold is_int64, min_int64, max_int64. cbn. lia.
  - cbn. lia.
  - unfold max_int64. cbn. lia.
  - reflexivity.
Defined.

Lemma entropy_failure_is_fatal_witness :
  s3config.fetch (sample.http_Get "good") sample.json_Unmarshal sample.pem_Decode
    sample.x509_ParseCertificate sample.rd_broken sample.s0
  = (events (s3config.fetchConfig (sample.http_Get "good") sample.json_Unmarshal
               sample.pem_Decode sample.x509_ParseCertificate sample.s0),
     final (s3config.fetchConfig (sample.http_Get "good") sample.json_Unmarshal
              sample.pem_Decode sample.x509_ParseCertificate sample.s0),
     Exit "Unable to update poll interval: unexpected EOF").
Proof.
  apply (entropy_failure_is_fatal (sample.http_Get "good") sample.json_Unmarshal
           sample.pem_Decode sample.x509_ParseCertificate sample.rd_broken
           sample.s0 "unexpected EOF").
  - reflexivity.
  - reflexivity.
  - reflexivity.
Defined.

Lemma fetch_exits_only_on_entropy_failure_witness :
  exists err,
    rd_Int sample.rd_broken
      (wrap64
         (s3config.maxPoll
            (final (s3config.fetchConfig (sample.http_Get "good")
                      sample.json_Unmarshal sample.pem_Decode
                      sample.x509_ParseCertificate sample.s0)) -
          s3config.minPoll
            (final (s3config.fetchConfig (sample.http_Get "good")
                      sample.json_Unmarshal sample.pem_Decode
                      sample.x509_ParseCertificate sample.s0))))
      = inr err /\
    "Unable to update poll interval: unexpected EOF"
      = "Unable to update poll interval: " +:+ err.
Proof.
  apply (fetch_exits_only_on_entropy_failure (sample.http_Get "good")
           sample.json_Unmarshal sample.pem_Decode sample.x509_ParseCertificate
           sample.rd_broken sample.s0).
  reflexivity.
Defined.

Lemma fetch_sleeps_whole_minutes_witness :
  exists d,
    events (sample.fetch "good" sample.s0)
      = events (s3config.fetchConfig (sample.http_Get "good") sample.json_Unmarshal
                  sample.pem_Decode sample.x509_ParseCertificate sample.s0)
        ++ [s3config.EvSleep d] /\
    ending (sample.fetch "good" sample.s0) = Ret tt /\
    d mod time_Minute = 0 /\
    s3config.minPoll
      (final (s3config.fetchConfig (sample.http_Get "good") sample.json_Unmarshal
                sample.pem_Decode sample.x509_ParseCertificate sample.s0))
      * time_Minute <= d
      < s3config.maxPoll
          (final (s3config.fetchConfig (sample.http_Get "good") sample.json_Unmarshal
                    sample.pem_Decode sample.x509_ParseCertificate sample.s0))
        * time_Minute.
Proof.
  apply (fetch_sleeps_whole_minutes (sample.http_Get "good") sample.json_Unmarshal
           sample.pem_Decode sample.x509_ParseCertificate sample.rd sample.s0 9).
  - split.
    + intros max v Hmax [= <-]. lia.
    + intros n bs [= <-]. apply repeat_length.
  - reflexivity.
  - cbn. lia.
  - cbn. lia.
  - cbn. lia.
  - reflexivity.
Defined.

Lemma apply_builds_one_trusted_fallback_per_entry_witness :
  length sample.fallbacks = length (s3config.Fallbacks sample.doc_good_sent) /\
  forall (i : nat) (o : option s3config.FallbackConfig),
    s3config.Fallbacks sample.doc_good_sent !! i = Some o ->
    exists f cert,
      o = Some f /\ s3config.X509Cert f = Some cert /\
      sample.fallbacks !! i
        = Some {| proxy.FallbackConfig := f;
                  proxy.tlsConfig :=
                    Some {| proxy.RootCAs := [cert];
                            proxy.InsecureSkipVerify := true |} |}.
Proof.
  apply (apply_builds_one_trusted_fallback_per_entry sample.doc_good_sent
           proxy.no_fallbacks sample.fallbacks).
  reflexivity.
Defined.

Lemma fetched_document_reaches_selection_witness :
  exists cert new,
    s3config.parseCert sample.pem_Decode sample.x509_ParseCertificate
      (s3config.Cert (sample.fallback "10.0.0.1" "alpha" sample.pem_text)) = inl cert /\
    updateFallbacks (events (sample.fetch "good" sample.s0)) proxy.no_fallbacks
      = Ret new /\
    length new = length (s3config.Fallbacks sample.doc_good) /\
    proxy.getFallback new
      = Ret {| proxy.FallbackConfig :=
                 s3config.setX509Cert cert
                   (sample.fallback "10.0.0.1" "alpha" sample.pem_text);
               proxy.tlsConfig :=
                 Some {| proxy.RootCAs := [cert];
                         proxy.InsecureSkipVerify := true |} |}.
Proof.
  apply (fetched_document_reaches_selection (sample.http_Get "good")
           sample.json_Unmarshal sample.pem_Decode sample.x509_ParseCertificate
           sample.rd sample.s0 sample.doc_good
           (sample.fallback "10.0.0.1" "alpha" sample.pem_text)
           [Some (sample.fallback "10.0.0.2" "beta" sample.pem_text)]
           proxy.no_fallbacks).
  - reflexivity.
  - reflexivity.
  - repeat constructor; eexists _, _; split; reflexivity.
Defined.

Lemma padding_token_shape_witness :
  exists bLength : Z,
    rd_Int sample.rd 100 = inl bLength /\
    Z.of_nat (String.length sample.token) = 4 * ((bLength + 2) / 3) /\
    (String.length sample.token <= 132)%nat /\
    forallb base64.is_base64_char (list_ascii_of_string sample.token) = true.
Proof.
  apply (padding_token_shape sample.rd sample.token).
  - split.
    + intros max v Hmax [= <-]. lia.
    + intros n bs [= <-]. apply repeat_length.
  - reflexivity.
Defined.

Lemma padding_token_fails_only_with_the_entropy_source_witness :
  (exists r, proxy.randomLengthString sample.rd = Ret r) /\
  (proxy.randomLengthString sample.rd = Ret (inr "unexpected EOF") <->
   rd_Int sample.rd 100 = inr "unexpected EOF" \/
   exists bLength, rd_Int sample.rd 100 = inl bLength /\
                   rd_Read sample.rd (Z.to_nat bLength) = inr "unexpected EOF").
Proof.
  apply (padding_token_fails_only_with_the_entropy_source sample.rd "unexpected EOF").
  split.
  - intros max v Hmax [= <-]. lia.
  - intros n bs [= <-]. apply repeat_length.
Defined.

Lemma session_dials_the_selected_fallback_only_witness :
  exists fb,
    proxy.getFallback sample.fallbacks = Ret fb /\
    (forall conn, proxy.connOut sample.session = Some conn ->
       proxy.remoteAddr conn
         = s3config.Ip (proxy.FallbackConfig fb) +:+ ":" +:+
           s3config.Port (proxy.FallbackConfig fb) /\
       proxy.connConfig conn = proxy.tlsConfig fb /\
       (length (proxy.sent conn) <= 1)%nat) /\
    (proxy.piping sample.session = true <->
     exists conn, proxy.connOut sample.session = Some conn /\ proxy.sent conn <> []).
Proof.
  apply (session_dials_the_selected_fallback_only sample.net_ok sample.rd
           sample.fallbacks http.newResponse sample.request sample.session).
  reflexivity.
Defined.

Lemma request_aborts_only_without_fallbacks_witness :
  (forall msg, proxy.handleLocalRequest sample.net_ok sample.rd proxy.no_fallbacks
                 http.newResponse sample.request <> Panic msg) /\
  (forall msg, proxy.handleLocalRequest sample.net_ok sample.rd proxy.no_fallbacks
                 http.newResponse sample.request = Exit msg ->
               proxy.no_fallbacks = [] /\ msg = "No fallback configured!").
Proof.
  apply (request_aborts_only_without_fallbacks sample.net_ok sample.rd
           proxy.no_fallbacks http.newResponse sample.request).
  split.
  - intros max v Hmax [= <-]. lia.
  - intros n bs [= <-]. apply repeat_length.
Defined.

Lemma padding_failure_is_silent_witness :
  exists s : proxy.Session,
    proxy.handleLocalRequest sample.net_ok sample.rd_broken sample.fallbacks
      http.newResponse sample.request = Ret s /\
    http.hijacked (proxy.resp s) = true /\
    http.status (proxy.resp s) = None /\
    http.written (proxy.resp s) = [] /\
    proxy.nothing_sent_upstream s.
Proof.
  apply (padding_failure_is_silent sample.net_ok sample.rd_broken sample.fallbacks
           sample.request
           (sample.trusted (sample.fallback "10.0.0.1" "alpha" sample.pem_text))
           "unexpected EOF").
  - reflexivity.
  - reflexivity.
  - reflexivity.
  - reflexivity.
Defined.

Lemma handleLocalRequest_forward_witness :
  proxy.handleLocalRequest sample.net_ok sample.rd sample.fallbacks
    http.newResponse sample.request
  = Ret {| proxy.resp := {| http.hijacked := true;
                            http.status := http.status http.newResponse;
                            http.written := http.written http.newResponse |};
           proxy.connOut :=
             Some {| proxy.remoteAddr :=
                       s3config.Ip (proxy.FallbackConfig
                                      (sample.trusted
                                         (sample.fallback "10.0.0.1" "alpha" sample.pem_text)))
                       +:+ ":" +:+
                       s3config.Port (proxy.FallbackConfig
                                        (sample.trusted
                                           (sample.fallback "10.0.0.1" "alpha" sample.pem_text)));
                     proxy.connConfig :=
                       proxy.tlsConfig
                         (sample.trusted
                            (sample.fallback "10.0.0.1" "alpha" sample.pem_text));
                     proxy.sent :=
                       [http.setHeader proxy.x_lantern_auth_token
                          (s3config.AuthToken
                             (proxy.FallbackConfig
                                (sample.trusted
                                   (sample.fallback "10.0.0.1" "alpha" sample.pem_text))))
                          (http.setHeader proxy.x_random_length_header sample.token
                             sample.request)] |};
           proxy.piping := true;
           proxy.logged := [] |}.
Proof.
  apply (handleLocalRequest_forward sample.net_ok sample.rd sample.fallbacks
           http.newResponse sample.request
           (sample.trusted (sample.fallback "10.0.0.1" "alpha" sample.pem_text))
           sample.token).
  - reflexivity.
  - reflexivity.
  - reflexivity.
  - reflexivity.
  - reflexivity.
Defined.
